(** * aumai-smartgram: the core components, embedded and verified

    The repository keeps five in-memory components (a registry of gram
    panchayats, a tracker of service requests, a budget analyzer, a meeting
    log and a catalog of government schemes).  This file embeds the
    operations of [core.py] and [models.py] that the specification makes
    claims about, and proves (or refutes) those claims.

    Layout: part I holds the embedding (Python's numbers and containers
    first, then one module per class of the source); part II holds the
    lemmas and the theorems. *)

From Stdlib Require Import ZArith List String Ascii Bool Lia.
From Stdlib Require Import Permutation Sorted DecimalString.
From Stdlib Require Floats.
Import ListNotations.

Local Open Scope string_scope.
Local Open Scope list_scope.
Local Open Scope Z_scope.

(* ================================================================= *)
(** * Part I: the embedding *)
(* ================================================================= *)

(** ** Exceptions

    The two built-in exceptions that Python's arithmetic can raise in the
    code under study.  A computation that may raise returns a [result]. *)

Inductive exn : Type :=
| ZeroDivisionError
| OverflowError.

Inductive result (A : Type) : Type :=
| Ok (a : A)
| Raise (e : exn).

Arguments Ok {A} a.
Arguments Raise {A} e.

Definition result_bind {A B : Type} (c : result A) (k : A -> result B) : result B :=
  match c with
  | Ok a => k a
  | Raise e => Raise e
  end.

Declare Scope result_scope.
Delimit Scope result_scope with result.
Notation "x <- c ;; k" := (result_bind c (fun x => k))
  (at level 61, c at next level, right associativity) : result_scope.

(** ** Python's [float]: IEEE 754 binary64

    Every finite binary64 number is an integer multiple of [2^-1074] (the
    smallest subnormal).  A finite float is stored as its sign and that
    integer, its magnitude counted in units of [2^-1074]; so [1.0] is
    [Fin false (2^1074)].  The sign is kept apart because Python
    distinguishes [0.0] and [-0.0].  An arithmetic operation computes the
    exact rational result and rounds it to the nearest representable
    number, ties to even, as IEEE 754 prescribes. *)

Module PyFloat.

Inductive float : Type :=
| NaN
| Inf (neg : bool)
| Fin (neg : bool) (mag : Z).

(** [1.0] in units of [2^-1074]. *)
Definition scale : Z := 2 ^ 1074.

(** [2^1024] in units of [2^-1074]: magnitudes from here on overflow. *)
Definition huge : Z := 2 ^ 2098.

(** The integer nearest to [a / b], ties to the even one ([0 <= a], [0 < b]). *)
Definition round_half_even (a b : Z) : Z :=
  let q := a / b in
  match 2 * (a mod b) ?= b with
  | Lt => q
  | Gt => q + 1
  | Eq => if Z.even q then q else q + 1
  end.

(** The spacing of binary64 numbers around [a / b] units is [2 ^ ulp_shift a b]
    units: 53 significant bits, and never finer than one unit. *)
Definition ulp_shift (a b : Z) : Z := Z.max 0 (Z.log2 (a / b) - 52).

(** The binary64 number nearest to [a / b] units, with the given sign. *)
Definition nearest (neg : bool) (a b : Z) : float :=
  let p := ulp_shift a b in
  let u := round_half_even a (b * 2 ^ p) * 2 ^ p in
  if huge <=? u then Inf neg else Fin neg u.

(** A literal such as [0.0], [50.0] or [100]. *)
Definition Z2F (n : Z) : float := nearest (n <? 0) (Z.abs n * scale) 1.

(** The value of a finite float, in units, with its sign. *)
Definition signed (neg : bool) (mag : Z) : Z := if neg then - mag else mag.

(** IEEE comparison: [None] when an operand is NaN (unordered). *)
Definition fcompare (x y : float) : option comparison :=
  match x, y with
  | NaN, _ | _, NaN => None
  | Inf sx, Inf sy => Some (if sx then (if sy then Eq else Lt) else (if sy then Gt else Eq))
  | Inf sx, Fin _ _ => Some (if sx then Lt else Gt)
  | Fin _ _, Inf sy => Some (if sy then Gt else Lt)
  | Fin sx mx, Fin sy my => Some (signed sx mx ?= signed sy my)
  end.

(** [x == y], [x < y], [x <= y] on floats. *)
Definition feqb (x y : float) : bool :=
  match fcompare x y with Some Eq => true | _ => false end.

Definition fltb (x y : float) : bool :=
  match fcompare x y with Some Lt => true | _ => false end.

Definition fleb (x y : float) : bool :=
  match fcompare x y with Some Lt | Some Eq => true | _ => false end.

(** IEEE multiplication, division and subtraction. *)
Definition fmul (x y : float) : float :=
  match x, y with
  | NaN, _ | _, NaN => NaN
  | Inf sx, Inf sy => Inf (xorb sx sy)
  | Inf sx, Fin sy m => if m =? 0 then NaN else Inf (xorb sx sy)
  | Fin sx m, Inf sy => if m =? 0 then NaN else Inf (xorb sx sy)
  | Fin sx mx, Fin sy my => nearest (xorb sx sy) (mx * my) scale
  end.

Definition fdiv (x y : float) : float :=
  match x, y with
  | NaN, _ | _, NaN => NaN
  | Inf _, Inf _ => NaN
  | Inf sx, Fin sy _ => Inf (xorb sx sy)
  | Fin sx _, Inf sy => Fin (xorb sx sy) 0
  | Fin sx mx, Fin sy my =>
      if my =? 0 then (if mx =? 0 then NaN else Inf (xorb sx sy))
      else nearest (xorb sx sy) (mx * scale) my
  end.

Definition fsub (x y : float) : float :=
  match x, y with
  | NaN, _ | _, NaN => NaN
  | Inf sx, Inf sy => if Bool.eqb sx sy then NaN else Inf sx
  | Inf sx, Fin _ _ => Inf sx
  | Fin _ _, Inf sy => Inf (negb sy)
  | Fin sx mx, Fin sy my =>
      let d := signed sx mx - signed sy my in
      if d =? 0 then Fin (sx && negb sy) 0
      else nearest (d <? 0) (Z.abs d) 1
  end.

(** Python's [x / y] on floats: [ZeroDivisionError] when [y == 0.0]. *)
Definition float_truediv (x y : float) : result float :=
  if feqb y (Z2F 0) then Raise ZeroDivisionError else Ok (fdiv x y).

(** Python's [float(n)] for an [int]: correctly rounded, [OverflowError]
    when the rounded value does not fit. *)
Definition float_of_int (n : Z) : result float :=
  match nearest (n <? 0) (Z.abs n * scale) 1 with
  | Fin s m => Ok (Fin s m)
  | _ => Raise OverflowError
  end.

(** Python's [a / b] on two [int]s: the correctly rounded quotient. *)
Definition int_truediv (a b : Z) : result float :=
  if b =? 0 then Raise ZeroDivisionError
  else match nearest (xorb (a <? 0) (b <? 0)) (Z.abs a * scale) (Z.abs b) with
       | Fin s m => Ok (Fin s m)
       | _ => Raise OverflowError
       end.

(** Python's [n / y] for an [int] [n] and a float [y]: [n] is converted first. *)
Definition int_float_truediv (n : Z) (y : float) : result float :=
  (x <- float_of_int n ;; float_truediv x y)%result.

(** Python's [round(x, 1)]: the exact value of [x] is rounded to one decimal
    digit, ties to even, and the decimal is converted back to the nearest
    float; NaN and the infinities round to themselves. *)
Definition round_1 (x : float) : float :=
  match x with
  | Fin s m => nearest s (round_half_even (10 * m) scale * scale) 10
  | _ => x
  end.

(** Decimal digits of a natural number, and the [,] grouping of a format
    specification: a comma between groups of three digits, counted from the
    right ([group_rev] works on the reversed digits). *)
Definition digits (n : Z) : string := NilZero.string_of_uint (N.to_uint (Z.to_N n)).

Fixpoint group_rev (l : list ascii) (n : nat) : list ascii :=
  match l with
  | [] => []
  | c :: l' =>
      match n with
      | O => ","%char :: c :: group_rev l' 2
      | S n' => c :: group_rev l' n'
      end
  end.

Definition group_thousands (s : string) : string :=
  string_of_list_ascii (rev' (group_rev (rev' (list_ascii_of_string s)) 3)).

(** Python's [format(x, ".0f")] and, with [grouped], [format(x, ",.0f")]. *)
Definition format_0f (grouped : bool) (x : float) : string :=
  match x with
  | NaN => "nan"
  | Inf s => ((if s then "-" else "") ++ "inf")%string
  | Fin s m =>
      let d := digits (round_half_even m scale) in
      ((if s then "-" else "") ++ (if grouped then group_thousands d else d))%string
  end.

(** The same datum as the Standard Library sees it, to compare the
    operations above with the hardware's on concrete inputs. *)
Definition to_prim (x : float) : PrimFloat.float :=
  match x with
  | NaN => PrimFloat.nan
  | Inf s => if s then PrimFloat.neg_infinity else PrimFloat.infinity
  | Fin s m =>
      let p := Z.max 0 (Z.log2 m - 52) in
      FloatOps.SF2Prim
        match m / 2 ^ p with
        | Zpos q => SpecFloat.S754_finite s q (p - 1074)
        | _ => SpecFloat.S754_zero s
        end
  end.

End PyFloat.

(** ** Python's built-in containers and functions *)

(** Truthiness of a value of type [str | None]: [None] and the empty string
    are false. *)
Definition truthy (o : option string) : bool :=
  match o with
  | None => false
  | Some s => negb (s =? "")%string
  end.

(** [sum(...)] over integers. *)
Definition py_sum (l : list Z) : Z := fold_left Z.add l 0.

(** [sorted(l, key=...)] with integer keys.  Python's sort is stable; the
    result of a stable sort is unique, and this insertion sort computes it:
    an element goes before the first element whose key is not smaller. *)
Fixpoint insert_by {A : Type} (key : A -> Z) (x : A) (l : list A) : list A :=
  match l with
  | [] => [x]
  | y :: l' => if key x <=? key y then x :: y :: l' else y :: insert_by key x l'
  end.

Definition sorted {A : Type} (key : A -> Z) (l : list A) : list A :=
  fold_right (insert_by key) [] l.

(** [q in s] on strings: [q] occurs in [s] as a contiguous substring. *)
Fixpoint py_in (q s : string) : bool :=
  if String.prefix q s then true
  else match s with
       | EmptyString => false
       | String _ s' => py_in q s'
       end.

(** A [dict] with string keys.  Python dicts keep insertion order, and the
    order is visible through [values()], so the dict is an association list
    in insertion order; assigning to a key that is present replaces the value
    where it stands. *)
Module PyDict.

Definition t (V : Type) : Type := list (string * V).

Definition empty {V : Type} : t V := [].

Fixpoint get {V : Type} (d : t V) (k : string) : option V :=
  match d with
  | [] => None
  | (k', v) :: d' => if (k' =? k)%string then Some v else get d' k
  end.

Fixpoint set {V : Type} (d : t V) (k : string) (v : V) : t V :=
  match d with
  | [] => [(k, v)]
  | (k', v') :: d' =>
      if (k' =? k)%string then (k', v) :: d' else (k', v') :: set d' k v
  end.

Definition values {V : Type} (d : t V) : list V := map snd d.

Definition len {V : Type} (d : t V) : nat := List.length d.

End PyDict.

(** ** models.py *)

Inductive ServiceCategory : Type :=
| INFRASTRUCTURE
| WELFARE
| AGRICULTURE
| HEALTH
| EDUCATION
| SANITATION
| WATER
| ROADS.

(** The [value] of a member of the enumeration. *)
Definition category_value (c : ServiceCategory) : string :=
  match c with
  | INFRASTRUCTURE => "infrastructure"
  | WELFARE => "welfare"
  | AGRICULTURE => "agriculture"
  | HEALTH => "health"
  | EDUCATION => "education"
  | SANITATION => "sanitation"
  | WATER => "water"
  | ROADS => "roads"
  end.

Module GramPanchayat.

Record t : Type := mk {
  panchayat_id : string;
  name : string;
  block : string;
  district : string;
  state : string;
  population : Z;
  households : Z;
  area_sq_km : PyFloat.float
}.

End GramPanchayat.

Module ServiceRequest.

Record t : Type := mk {
  request_id : string;
  panchayat_id : string;
  category : ServiceCategory;
  description : string;
  submitted_date : string;
  status : string;
  priority : Z;
  resolved_date : option string
}.

(** [req.status = v] and [req.resolved_date = v]. *)
Definition set_status (req : t) (v : string) : t :=
  mk (request_id req) (panchayat_id req) (category req) (description req)
     (submitted_date req) v (priority req) (resolved_date req).

Definition set_resolved_date (req : t) (v : option string) : t :=
  mk (request_id req) (panchayat_id req) (category req) (description req)
     (submitted_date req) (status req) (priority req) v.

End ServiceRequest.

Module BudgetAllocation.

Import PyFloat.

Record t : Type := mk {
  panchayat_id : string;
  financial_year : string;
  scheme_name : string;
  allocated_amount : float;
  utilized_amount : float
}.

(** The [utilization_pct] property. *)
Definition utilization_pct (self : t) : result float :=
  if feqb (allocated_amount self) (Z2F 0) then Ok (Z2F 0)
  else
    (q <- float_truediv (utilized_amount self) (allocated_amount self) ;;
     Ok (round_1 (fmul q (Z2F 100))))%result.

End BudgetAllocation.

Module SchemeInfo.

Record t : Type := mk {
  name : string;
  ministry : string;
  description : string;
  allocation_type : string;
  eligible_panchayats : string
}.

Definition set_name (s : t) (v : string) : t :=
  mk v (ministry s) (description s) (allocation_type s) (eligible_panchayats s).

End SchemeInfo.

Module MeetingRecord.

Record t : Type := mk {
  panchayat_id : string;
  date : string;
  attendees_count : Z;
  agenda_items : list string;
  decisions : list string;
  action_items : list string
}.

End MeetingRecord.

(** ** core.py: PanchayatRegistry *)

Module PanchayatRegistry.

Import PyFloat.

Record t : Type := mk { _panchayats : PyDict.t GramPanchayat.t }.

Definition __init__ : t := mk PyDict.empty.

Definition register (self : t) (panchayat : GramPanchayat.t) : t :=
  mk (PyDict.set (_panchayats self) (GramPanchayat.panchayat_id panchayat) panchayat).

Definition get (self : t) (panchayat_id : string) : option GramPanchayat.t :=
  PyDict.get (_panchayats self) panchayat_id.

Definition population_density (self : t) (panchayat_id : string) : result float :=
  match PyDict.get (_panchayats self) panchayat_id with
  | None => Ok (Z2F 0)
  | Some p =>
      if feqb (GramPanchayat.area_sq_km p) (Z2F 0) then Ok (Z2F 0)
      else
        (d <- int_float_truediv (GramPanchayat.population p) (GramPanchayat.area_sq_km p) ;;
         Ok (round_1 d))%result
  end.

Definition all_panchayats (self : t) : list GramPanchayat.t :=
  PyDict.values (_panchayats self).

Section WithLower.

(** Python's [str.lower], which the embedding takes as given. *)
Variable lower : string -> string.

Definition search_by_district (self : t) (district : string) : list GramPanchayat.t :=
  let d := lower district in
  filter (fun p => py_in d (lower (GramPanchayat.district p)))
         (PyDict.values (_panchayats self)).

Definition search_by_state (self : t) (state : string) : list GramPanchayat.t :=
  let s := lower state in
  filter (fun p => py_in s (lower (GramPanchayat.state p)))
         (PyDict.values (_panchayats self)).

End WithLower.

End PanchayatRegistry.

(** ** core.py: ServiceTracker

    A request is represented by its value.  [update_status] assigns to the
    fields of the request object that the dict holds; in the embedding it
    stores the updated value under the same key, at the same position. *)

Module ServiceTracker.

Import PyFloat.

Record t : Type := mk { _requests : PyDict.t ServiceRequest.t }.

Definition __init__ : t := mk PyDict.empty.

Definition create (self : t) (request : ServiceRequest.t) : t :=
  mk (PyDict.set (_requests self) (ServiceRequest.request_id request) request).

Definition update_status (self : t) (request_id status : string)
    (resolved_date : option string) : bool * t :=
  match PyDict.get (_requests self) request_id with
  | None => (false, self)
  | Some req =>
      let req := ServiceRequest.set_status req status in
      let req :=
        if truthy resolved_date then ServiceRequest.set_resolved_date req resolved_date
        else req in
      (true, mk (PyDict.set (_requests self) request_id req))
  end.

Definition get_pending (self : t) (panchayat_id : option string) : list ServiceRequest.t :=
  let results :=
    filter (fun r => (ServiceRequest.status r =? "pending")%string)
           (PyDict.values (_requests self)) in
  let results :=
    if truthy panchayat_id then
      filter (fun r =>
                match panchayat_id with
                | Some p => (ServiceRequest.panchayat_id r =? p)%string
                | None => false
                end) results
    else results in
  sorted ServiceRequest.priority results.

Definition resolution_rate (self : t) (panchayat_id : string) : result float :=
  let total :=
    py_sum (map (fun _ => 1)
                (filter (fun r => (ServiceRequest.panchayat_id r =? panchayat_id)%string)
                        (PyDict.values (_requests self)))) in
  let resolved :=
    py_sum (map (fun _ => 1)
                (filter (fun r => (ServiceRequest.panchayat_id r =? panchayat_id)%string
                                  && (ServiceRequest.status r =? "resolved")%string)
                        (PyDict.values (_requests self)))) in
  if total >? 0 then
    (q <- int_truediv resolved total ;; Ok (round_1 (fmul q (Z2F 100))))%result
  else Ok (Z2F 0).

(** [stats.get(cat, 0)]. *)
Definition get_default (stats : PyDict.t Z) (k : string) (default : Z) : Z :=
  match PyDict.get stats k with
  | Some n => n
  | None => default
  end.

Definition category_stats (self : t) (panchayat_id : string) : PyDict.t Z :=
  fold_left
    (fun stats r =>
       if (ServiceRequest.panchayat_id r =? panchayat_id)%string then
         let cat := category_value (ServiceRequest.category r) in
         PyDict.set stats cat (get_default stats cat 0 + 1)
       else stats)
    (PyDict.values (_requests self))
    PyDict.empty.

End ServiceTracker.

(** ** core.py: BudgetAnalyzer *)

(** A list comprehension whose condition may raise, and a loop that appends
    one computed element per item: the first exception aborts the whole. *)
Fixpoint filter_result {A : Type} (f : A -> result bool) (l : list A) : result (list A) :=
  match l with
  | [] => Ok []
  | x :: l' =>
      (keep <- f x ;;
       rest <- filter_result f l' ;;
       Ok (if keep then x :: rest else rest))%result
  end.

Fixpoint map_result {A B : Type} (f : A -> result B) (l : list A) : result (list B) :=
  match l with
  | [] => Ok []
  | x :: l' => (y <- f x ;; rest <- map_result f l' ;; Ok (y :: rest))%result
  end.

(** A [for] loop that updates a local variable and whose body may raise. *)
Fixpoint for_result {A S : Type} (l : list A) (body : S -> A -> result S) (s : S)
    : result S :=
  match l with
  | [] => Ok s
  | x :: l' => (s' <- body s x ;; for_result l' body s')%result
  end.

Module BudgetAnalyzer.

Import PyFloat.

Record t : Type := mk { _allocations : list BudgetAllocation.t }.

Definition __init__ : t := mk [].

Definition add (self : t) (allocation : BudgetAllocation.t) : t :=
  mk (_allocations self ++ [allocation]).

(** The default of the [threshold] parameter of [under_utilized]. *)
Definition default_threshold : float := Z2F 50.

Definition under_utilized (self : t) (panchayat_id year : string) (threshold : float)
    : result (list BudgetAllocation.t) :=
  filter_result
    (fun a =>
       if (BudgetAllocation.panchayat_id a =? panchayat_id)%string
          && (BudgetAllocation.financial_year a =? year)%string
       then (pct <- BudgetAllocation.utilization_pct a ;; Ok (fltb pct threshold))%result
       else Ok false)
    (_allocations self).

(** The f-string of [recommend_reallocation]. *)
Definition recommendation (unused : float) (scheme_name : string) (pct : float) : string :=
  ("Reallocate Rs " ++ format_0f true unused ++ " from " ++ scheme_name
   ++ " (only " ++ format_0f false pct ++ "% utilized) to higher-need areas")%string.

Definition recommend_reallocation (self : t) (panchayat_id year : string)
    : result (list string) :=
  (under <- under_utilized self panchayat_id year default_threshold ;;
   map_result
     (fun a =>
        let unused :=
          fsub (BudgetAllocation.allocated_amount a) (BudgetAllocation.utilized_amount a) in
        pct <- BudgetAllocation.utilization_pct a ;;
        Ok (recommendation unused (BudgetAllocation.scheme_name a) pct))
     under)%result.

Definition utilization_by_scheme (self : t) (panchayat_id year : string)
    : result (PyDict.t float) :=
  for_result (_allocations self)
    (fun result a =>
       if (BudgetAllocation.panchayat_id a =? panchayat_id)%string
          && (BudgetAllocation.financial_year a =? year)%string
       then (pct <- BudgetAllocation.utilization_pct a ;;
             Ok (PyDict.set result (BudgetAllocation.scheme_name a) pct))%result
       else Ok result)
    PyDict.empty.

(** The default of the [threshold] parameter of [over_utilized]. *)
Definition default_over_threshold : float := Z2F 90.

Definition over_utilized (self : t) (panchayat_id year : string) (threshold : float)
    : result (list BudgetAllocation.t) :=
  filter_result
    (fun a =>
       if (BudgetAllocation.panchayat_id a =? panchayat_id)%string
          && (BudgetAllocation.financial_year a =? year)%string
       then (pct <- BudgetAllocation.utilization_pct a ;; Ok (fltb threshold pct))%result
       else Ok false)
    (_allocations self).

End BudgetAnalyzer.

(** ** core.py: MeetingManager *)

Module MeetingManager.

Record t : Type := mk { _meetings : list MeetingRecord.t }.

Definition __init__ : t := mk [].

Definition record (self : t) (meeting : MeetingRecord.t) : t :=
  mk (_meetings self ++ [meeting]).

Definition get_meetings (self : t) (panchayat_id : string) : list MeetingRecord.t :=
  filter (fun m => (MeetingRecord.panchayat_id m =? panchayat_id)%string) (_meetings self).

(** The loop appends the action items of every meeting of the unit
    ([items.extend]). *)
Definition all_action_items (self : t) (panchayat_id : string) : list string :=
  fold_left
    (fun items m =>
       if (MeetingRecord.panchayat_id m =? panchayat_id)%string
       then items ++ MeetingRecord.action_items m
       else items)
    (_meetings self)
    [].

Definition meeting_count (self : t) (panchayat_id : string) : Z :=
  py_sum (map (fun _ => 1)
              (filter (fun m => (MeetingRecord.panchayat_id m =? panchayat_id)%string)
                      (_meetings self))).

End MeetingManager.

(** ** core.py: the scheme catalog and SchemeMapper

    The claims about the catalog speak of which objects a returned list
    shares with the catalog, so this part of the program is embedded over an
    explicit store.  A reference is an address in the store; a [SchemeInfo]
    instance and a Python list are objects in it, and a list holds references
    to its items.  [list(x)] and a comprehension allocate a new list object;
    nothing in the source copies a [SchemeInfo]. *)

Module Store.

Definition ref : Type := nat.

Inductive object : Type :=
| ObjScheme (s : SchemeInfo.t)
| ObjList (items : list ref).

Definition heap : Type := list object.

(** A computation over the store; [None] is a reference that does not hold
    the kind of object the code expects (it does not arise from the source). *)
Definition M (A : Type) : Type := heap -> option (A * heap).

Definition ret {A : Type} (a : A) : M A := fun h => Some (a, h).

Definition bind {A B : Type} (c : M A) (k : A -> M B) : M B :=
  fun h =>
    match c h with
    | Some (a, h') => k a h'
    | None => None
    end.

Definition alloc (o : object) : M ref :=
  fun h => Some (List.length h, h ++ [o]).

Definition read_list (l : ref) : M (list ref) :=
  fun h =>
    match nth_error h l with
    | Some (ObjList items) => Some (items, h)
    | _ => None
    end.

Definition read_scheme (r : ref) : M SchemeInfo.t :=
  fun h =>
    match nth_error h r with
    | Some (ObjScheme s) => Some (s, h)
    | _ => None
    end.

Fixpoint heap_set (h : heap) (r : ref) (o : object) : heap :=
  match h, r with
  | [], _ => []
  | _ :: h', O => o :: h'
  | x :: h', S r' => x :: heap_set h' r' o
  end.

(** [l.append(x)] on a list object. *)
Definition list_append (l x : ref) : M unit :=
  fun h =>
    match nth_error h l with
    | Some (ObjList items) => Some (tt, heap_set h l (ObjList (items ++ [x])))
    | _ => None
    end.

(** [r.name = v] on a [SchemeInfo] instance: the model class is not frozen,
    so any holder of a reference may assign to a field. *)
Definition setattr_name (r : ref) (v : string) : M unit :=
  fun h =>
    match nth_error h r with
    | Some (ObjScheme s) => Some (tt, heap_set h r (ObjScheme (SchemeInfo.set_name s v)))
    | _ => None
    end.

End Store.

Declare Scope heap_scope.
Delimit Scope heap_scope with heap.
Notation "x <- c ;; k" := (Store.bind c (fun x => k))
  (at level 61, c at next level, right associativity) : heap_scope.
Notation "c ;; k" := (Store.bind c (fun _ => k))
  (at level 61, right associativity) : heap_scope.

Module SchemeMapper.

Import Store.

(** The items of the list literal bound to [_SCHEMES], as written. *)
Definition scheme_literals : list SchemeInfo.t :=
  [ SchemeInfo.mk "MGNREGA" "Ministry of Rural Development"
      "100 days guaranteed wage employment per rural household per year."
      "demand-driven" "all_rural";
    SchemeInfo.mk "PMAY-Gramin" "Ministry of Rural Development"
      "Pucca house with basic amenities. Rs 1.20 lakh (plains), Rs 1.30 lakh (hilly)."
      "unit-based" "houseless_kutcha";
    SchemeInfo.mk "Swachh Bharat Mission (Gramin)" "Ministry of Jal Shakti"
      "ODF villages. Individual household toilets and community sanitary complexes."
      "unit-based" "all_rural";
    SchemeInfo.mk "PMGSY" "Ministry of Rural Development"
      "All-weather road connectivity to unconnected habitations (500+ population, 250+ in hilly)."
      "project-based" "unconnected_habitations";
    SchemeInfo.mk "National Health Mission" "Ministry of Health"
      "Health Sub-Centres, PHCs. Free medicines, diagnostics. ASHA workers."
      "population-based" "all";
    SchemeInfo.mk "Samagra Shiksha" "Ministry of Education"
      "Holistic education from pre-school to Class XII. School infrastructure and teacher training."
      "population-based" "all";
    SchemeInfo.mk "National Rural Livelihood Mission" "Ministry of Rural Development"
      "SHG formation, skill development, micro-credit. Targets poorest of poor."
      "demand-driven" "all_rural";
    SchemeInfo.mk "DDU-GKY" "Ministry of Rural Development"
      "Skill development and placement for rural youth aged 15-35."
      "demand-driven" "all_rural";
    SchemeInfo.mk "Jal Jeevan Mission" "Ministry of Jal Shakti"
      "Functional household tap connection (FHTC) to every rural household by 2024."
      "unit-based" "all_rural";
    SchemeInfo.mk "PM-KISAN" "Ministry of Agriculture"
      "Rs 6,000/year income support to farmer families in 3 installments."
      "dbt" "farming_households";
    SchemeInfo.mk "RKVY-RAFTAAR" "Ministry of Agriculture"
      "Infrastructure for agriculture and allied sectors. Agri-business promotion."
      "project-based" "all_rural";
    SchemeInfo.mk "ICDS/Poshan Abhiyaan" "Ministry of Women & Child"
      "Supplementary nutrition, immunization, health checkup for children 0-6 and pregnant women."
      "anganwadi-based" "all";
    SchemeInfo.mk "Mid-Day Meal (PM-POSHAN)" "Ministry of Education"
      "Hot cooked lunch for government school children Class I-VIII."
      "per-child" "all";
    SchemeInfo.mk "NSAP (National Social Assistance)" "Ministry of Rural Development"
      "Pension for elderly (IGNOAPS), widows (IGNWPS), disabled (IGNDPS)."
      "dbt" "all_bpl";
    SchemeInfo.mk "AMRUT 2.0" "Ministry of Housing"
      "Water supply, sewerage, drainage for urban areas and census towns."
      "project-based" "census_towns" ].

(** Evaluating the list literal: every [SchemeInfo(...)] call allocates an
    instance, then the list itself is allocated. *)
Fixpoint new_schemes (l : list SchemeInfo.t) : M (list ref) :=
  match l with
  | [] => ret []
  | s :: l' =>
      (r <- alloc (ObjScheme s) ;; rs <- new_schemes l' ;; ret (r :: rs))%heap
  end.

Definition load_module : M ref :=
  (rs <- new_schemes scheme_literals ;; alloc (ObjList rs))%heap.

(** The store once the module is imported, and the module-level name
    [_SCHEMES] (the address of the canonical list). *)
Definition imported : ref * heap :=
  match load_module [] with
  | Some x => x
  | None => (O, [])
  end.

Definition _SCHEMES : ref := fst imported.

Definition module_heap : heap := snd imported.

Record t : Type := mk { _schemes : ref }.

(** [self._schemes = list(_SCHEMES)]. *)
Definition __init__ : M t :=
  (items <- read_list _SCHEMES ;; l <- alloc (ObjList items) ;; ret (mk l))%heap.

(** A [for] loop over the items of a list that the body does not change. *)
Fixpoint for_each (items : list ref) (body : ref -> M unit) : M unit :=
  match items with
  | [] => ret tt
  | x :: items' => (body x ;; for_each items' body)%heap
  end.

(** [ep in ("all", "all_rural", "all_bpl")]. *)
Definition in_tuple (s : string) (l : list string) : bool :=
  existsb (fun x => (s =? x)%string) l.

(** The body of the loop of [find_eligible]: the chain of [if]/[elif] on the
    tag of one scheme, appending the scheme to [eligible] or passing. *)
Definition find_eligible_step (panchayat : GramPanchayat.t) (eligible scheme : ref) : M unit :=
  (s <- read_scheme scheme ;;
   let ep := SchemeInfo.eligible_panchayats s in
   if in_tuple ep ["all"; "all_rural"; "all_bpl"] then
     list_append eligible scheme
   else if (ep =? "farming_households")%string then
     list_append eligible scheme
   else if (ep =? "census_towns")%string
           && (GramPanchayat.population panchayat >? 5000) then
     list_append eligible scheme
   else if (ep =? "unconnected_habitations")%string
           && (GramPanchayat.population panchayat >=? 250) then
     list_append eligible scheme
   else if (ep =? "houseless_kutcha")%string then
     list_append eligible scheme
   else ret tt)%heap.

Definition find_eligible (self : t) (panchayat : option GramPanchayat.t) : M ref :=
  match panchayat with
  | None => (items <- read_list (_schemes self) ;; alloc (ObjList items))%heap
  | Some p =>
      (eligible <- alloc (ObjList []) ;;
       items <- read_list (_schemes self) ;;
       for_each items (find_eligible_step p eligible) ;;
       ret eligible)%heap
  end.

(** [q in s] on strings. *)
Fixpoint contains (q s : string) : bool :=
  if String.prefix q s then true
  else match s with
       | EmptyString => false
       | String _ s' => contains q s'
       end.

(** The items of a comprehension over [items] with a condition on the
    instance behind each reference. *)
Fixpoint select (cond : SchemeInfo.t -> bool) (items : list ref) : M (list ref) :=
  match items with
  | [] => ret []
  | x :: items' =>
      (s <- read_scheme x ;;
       rest <- select cond items' ;;
       ret (if cond s then x :: rest else rest))%heap
  end.

Section WithLower.

(** Python's [str.lower], which the embedding takes as given. *)
Variable lower : string -> string.

Definition search (self : t) (query : string) : M ref :=
  let q := lower query in
  (items <- read_list (_schemes self) ;;
   found <- select (fun s => contains q (lower (SchemeInfo.name s))
                             || contains q (lower (SchemeInfo.description s))) items ;;
   alloc (ObjList found))%heap.

End WithLower.

Definition all_schemes (self : t) : M ref :=
  (items <- read_list (_schemes self) ;; alloc (ObjList items))%heap.

(** What a holder of a list reference sees: the instances behind its items. *)
Fixpoint deref_all (h : heap) (items : list ref) : option (list SchemeInfo.t) :=
  match items with
  | [] => Some []
  | x :: items' =>
      match nth_error h x, deref_all h items' with
      | Some (ObjScheme s), Some rest => Some (s :: rest)
      | _, _ => None
      end
  end.

Definition view (h : heap) (l : ref) : option (list SchemeInfo.t) :=
  match nth_error h l with
  | Some (ObjList items) => deref_all h items
  | _ => None
  end.

End SchemeMapper.

(* ================================================================= *)
(** * Part I, continued: the vocabulary of the statements

    Predicates and values that the theorems use to say what the
    specification claims, and the concrete inputs of the examples. *)
(* ================================================================= *)

(** The order that [sorted] establishes: keys do not decrease. *)
Definition le_by {A : Type} (key : A -> Z) (a b : A) : Prop := key a <= key b.

(** The requests [get_pending] is to return, before sorting: those whose
    status is the string [pending], of the unit [flt] when [flt] is a
    non-empty identifier and of every unit otherwise. *)
Definition selected (flt : option string) (r : ServiceRequest.t) : bool :=
  (ServiceRequest.status r =? "pending")%string
  && match flt with
     | Some p => if (p =? "")%string then true else (ServiceRequest.panchayat_id r =? p)%string
     | None => true
     end.

(** A request used in the examples below. *)
Definition example_request (request_id panchayat_id status : string) (priority : Z)
    : ServiceRequest.t :=
  ServiceRequest.mk request_id panchayat_id WATER "Water pipeline repair"
    "2025-01-15" status priority None.

(** A unit used in the examples below. *)
Definition example_panchayat (panchayat_id name : string) (population : Z)
    (area_sq_km : PyFloat.float) : GramPanchayat.t :=
  GramPanchayat.mk panchayat_id name "Block A" "Sitapur" "Uttar Pradesh"
    population 400 area_sq_km.

(** The percentage as the specification writes it, with no guard:
    [round(utilized / allocated * 100, 1)]. *)
Definition unguarded_pct (a : BudgetAllocation.t) : result PyFloat.float :=
  (q <- PyFloat.float_truediv (BudgetAllocation.utilized_amount a)
          (BudgetAllocation.allocated_amount a) ;;
   Ok (PyFloat.round_1 (PyFloat.fmul q (PyFloat.Z2F 100))))%result.

(** The float that [utilization_pct] returns. *)
Definition pct_value (a : BudgetAllocation.t) : PyFloat.float :=
  if PyFloat.feqb (BudgetAllocation.allocated_amount a) (PyFloat.Z2F 0) then PyFloat.Z2F 0
  else PyFloat.round_1
         (PyFloat.fmul
            (PyFloat.fdiv (BudgetAllocation.utilized_amount a)
               (BudgetAllocation.allocated_amount a))
            (PyFloat.Z2F 100)).

(** The figures of the tests and of the specification's scenario. *)
Definition example_allocation (scheme_name : string) (allocated utilized : Z)
    : BudgetAllocation.t :=
  BudgetAllocation.mk "GP001" "2024-25" scheme_name
    (PyFloat.Z2F allocated) (PyFloat.Z2F utilized).

(** A magnitude (in units) that is a finite binary64 number: below the
    overflow threshold, and a multiple of the spacing at its own size. *)
Definition representable (B : Z) : bool :=
  (0 <=? B) && (B <? PyFloat.huge)
  && (B mod 2 ^ Z.max 0 (Z.log2 B - 52) =? 0).

(** The largest integer that converts to a finite float
    ([sys.float_info.max], which is an integer). *)
Definition float_max_int : Z := (2 ^ 53 - 1) * 2 ^ 971.

(** The records of one unit and year. *)
Definition matching (panchayat_id year : string) (a : BudgetAllocation.t) : bool :=
  (BudgetAllocation.panchayat_id a =? panchayat_id)%string
  && (BudgetAllocation.financial_year a =? year)%string.

(** The line that [recommend_reallocation] writes for a record: it names the
    unspent amount (allocated minus utilized), the scheme and the
    utilization percentage. *)
Definition recommendation_for (a : BudgetAllocation.t) : string :=
  BudgetAnalyzer.recommendation
    (PyFloat.fsub (BudgetAllocation.allocated_amount a) (BudgetAllocation.utilized_amount a))
    (BudgetAllocation.scheme_name a)
    (pct_value a).

(** The scenario of the specification: four allocations of one unit and year. *)
Definition scenario : BudgetAnalyzer.t :=
  BudgetAnalyzer.add
    (BudgetAnalyzer.add
       (BudgetAnalyzer.add
          (BudgetAnalyzer.add BudgetAnalyzer.__init__
             (example_allocation "MGNREGA" 500000 320000))
          (example_allocation "Jal Jeevan Mission" 800000 760000))
       (example_allocation "PMAY-Gramin" 300000 90000))
    (example_allocation "Swachh Bharat" 150000 148000).

(** The items of [items] whose instance (the one at the same position of
    [cat]) satisfies [cond]. *)
Fixpoint chosen (cond : SchemeInfo.t -> bool) (items : list Store.ref)
    (cat : list SchemeInfo.t) : list Store.ref :=
  match items, cat with
  | x :: items', s :: cat' =>
      if cond s then x :: chosen cond items' cat' else chosen cond items' cat'
  | _, _ => []
  end.

(** The rule of the specification: the five tags that are always eligible,
    the two that depend on the population, and nothing else. *)
Definition eligible_by_tag (tag : string) (population : Z) : bool :=
  SchemeMapper.in_tuple tag
    ["all"; "all_rural"; "all_bpl"; "farming_households"; "houseless_kutcha"]
  || (tag =? "census_towns")%string && (population >? 5000)
  || (tag =? "unconnected_habitations")%string && (population >=? 250).

(** The three read operations of [SchemeMapper]. *)
Inductive operation : Type :=
| AllSchemes
| SearchFor (query : string)
| FindEligible (panchayat : option GramPanchayat.t).

Definition run (lower : string -> string) (self : SchemeMapper.t) (op : operation)
    : Store.M Store.ref :=
  match op with
  | AllSchemes => SchemeMapper.all_schemes self
  | SearchFor query => SchemeMapper.search lower self query
  | FindEligible panchayat => SchemeMapper.find_eligible self panchayat
  end.

(** A mapper right after construction, in the store of the imported module. *)
Definition constructed : SchemeMapper.t * Store.heap :=
  match SchemeMapper.__init__ SchemeMapper.module_heap with
  | Some x => x
  | None => (SchemeMapper.mk O, [])
  end.

(** A sequence of [register] calls, in order. *)
Definition register_all (self : PanchayatRegistry.t) (units : list GramPanchayat.t)
    : PanchayatRegistry.t :=
  fold_left PanchayatRegistry.register units self.

(** Equality of categories. *)
Definition category_eqb (c c' : ServiceCategory) : bool :=
  (category_value c =? category_value c')%string.

(** A float that is finite and not negative (a well-formed magnitude, zero
    of either sign included). *)
Definition finite_nonneg (x : PyFloat.float) : bool :=
  match x with
  | PyFloat.Fin s m => (0 <=? m) && (negb s || (m =? 0))
  | _ => false
  end.

(** A lower-casing of the ASCII letters, to run the searches in examples. *)
Definition ascii_lower_char (c : ascii) : ascii :=
  let n := nat_of_ascii c in
  if (65 <=? n)%nat && (n <=? 90)%nat then ascii_of_nat (n + 32) else c.

Fixpoint ascii_lower (s : string) : string :=
  match s with
  | EmptyString => EmptyString
  | String c s' => String (ascii_lower_char c) (ascii_lower s')
  end.

(** The condition of [search] on one scheme: the lower-cased query occurs
    in the lower-cased name or in the lower-cased description. *)
Definition scheme_matches (lower : string -> string) (query : string) (s : SchemeInfo.t)
    : bool :=
  py_in (lower query) (lower (SchemeInfo.name s))
  || py_in (lower query) (lower (SchemeInfo.description s)).

(* ================================================================= *)
(** * Part II: lemmas and theorems *)
(* ================================================================= *)

(** ** Dictionaries *)

Lemma dict_get_set_same {V : Type} (d : PyDict.t V) (k : string) (v : V) :
  PyDict.get (PyDict.set d k v) k = Some v.
Proof.
  induction d as [| [k' v'] d IH]; simpl.
  - now rewrite String.eqb_refl.
  - destruct (k' =? k)%string eqn:E; simpl; rewrite E; auto.
Qed.

Lemma dict_len_set_present {V : Type} (d : PyDict.t V) (k : string) (v old : V) :
  PyDict.get d k = Some old -> PyDict.len (PyDict.set d k v) = PyDict.len d.
Proof.
  unfold PyDict.len.
  induction d as [| [k' v'] d IH]; simpl; intros H.
  - discriminate.
  - destruct (k' =? k)%string; simpl; auto.
Qed.

(** ** Stable sorting *)

Section SortedByKey.

Context {A : Type} (key : A -> Z).

Lemma insert_by_perm (x : A) (l : list A) : Permutation (insert_by key x l) (x :: l).
Proof.
  induction l as [| y l IH]; simpl.
  - reflexivity.
  - destruct (key x <=? key y).
    + reflexivity.
    + rewrite IH. apply perm_swap.
Qed.

Lemma sorted_perm (l : list A) : Permutation (sorted key l) l.
Proof.
  induction l as [| x l IH]; simpl.
  - constructor.
  - rewrite insert_by_perm. now constructor.
Qed.

Lemma insert_by_sorted (x : A) (l : list A) :
  StronglySorted (le_by key) l -> StronglySorted (le_by key) (insert_by key x l).
Proof.
  induction l as [| y l IH]; simpl; intros S.
  - repeat constructor.
  - inversion S as [| ? ? S' F]; subst.
    destruct (key x <=? key y) eqn:E.
    + apply Z.leb_le in E.
      constructor; [assumption |].
      constructor; [exact E |].
      eapply Forall_impl; [| exact F].
      unfold le_by. intros; lia.
    + apply Z.leb_gt in E.
      constructor; [now apply IH |].
      eapply Permutation_Forall; [symmetry; apply insert_by_perm |].
      constructor; [unfold le_by; lia | assumption].
Qed.

Lemma sorted_sorted (l : list A) : StronglySorted (le_by key) (sorted key l).
Proof.
  induction l as [| x l IH]; simpl.
  - constructor.
  - now apply insert_by_sorted.
Qed.

(** Stability: among the elements of one key the order is the original. *)
Lemma insert_by_stable (k : Z) (x : A) (l : list A) :
  filter (fun a => key a =? k) (insert_by key x l)
  = filter (fun a => key a =? k) (x :: l).
Proof.
  induction l as [| y l IH]; [reflexivity |].
  simpl insert_by.
  destruct (key x <=? key y) eqn:E; [reflexivity |].
  apply Z.leb_gt in E.
  change (filter (fun a => key a =? k) (y :: insert_by key x l))
    with (if key y =? k then y :: filter (fun a => key a =? k) (insert_by key x l)
          else filter (fun a => key a =? k) (insert_by key x l)).
  rewrite IH. simpl.
  destruct (key x =? k) eqn:Ex, (key y =? k) eqn:Ey; try reflexivity.
  apply Z.eqb_eq in Ex, Ey. lia.
Qed.

Lemma sorted_stable (k : Z) (l : list A) :
  filter (fun a => key a =? k) (sorted key l) = filter (fun a => key a =? k) l.
Proof.
  induction l as [| x l IH]; [reflexivity |].
  simpl sorted. rewrite insert_by_stable. simpl. now rewrite IH.
Qed.

End SortedByKey.

(** ** ServiceTracker *)

Lemma get_pending_unfold (self : ServiceTracker.t) (flt : option string) :
  ServiceTracker.get_pending self flt
  = sorted ServiceRequest.priority
      (filter (selected flt) (PyDict.values (ServiceTracker._requests self))).
Proof.
  unfold ServiceTracker.get_pending, selected.
  f_equal.
  destruct flt as [p |]; simpl.
  - destruct (p =? "")%string eqn:E; simpl.
    + apply filter_ext. intros r. now rewrite andb_true_r.
    + induction (PyDict.values (ServiceTracker._requests self)) as [| r l IH]; simpl.
      * reflexivity.
      * destruct (ServiceRequest.status r =? "pending")%string; simpl;
          [destruct (ServiceRequest.panchayat_id r =? p)%string |]; now rewrite IH.
  - apply filter_ext. intros r. now rewrite andb_true_r.
Qed.

(** C1, as stated, fails: with the empty string as the filter, [get_pending]
    does not restrict the result to the unit whose identifier is the empty
    string; here it returns a pending request of the unit [GP001]. *)
Lemma get_pending_empty_filter_keeps_other_units :
  let req := example_request "REQ001" "GP001" "pending" 2 in
  let self := ServiceTracker.create ServiceTracker.__init__ req in
  ServiceTracker.get_pending self (Some "") = [req]
  /\ ServiceRequest.panchayat_id req <> "".
Proof.
  split; [reflexivity | discriminate].
Qed.

(** C1, amended: for every tracker and every optional filter, [get_pending]
    returns exactly the requests whose status is the string [pending],
    restricted to the given unit when the filter is a non-empty identifier
    (the empty string restricts nothing), sorted by ascending priority,
    requests of equal priority standing in the order of the dict. *)
Theorem get_pending_spec (self : ServiceTracker.t) (flt : option string) :
  let all := PyDict.values (ServiceTracker._requests self) in
  let result := ServiceTracker.get_pending self flt in
  Permutation result (filter (selected flt) all)
  /\ StronglySorted (le_by ServiceRequest.priority) result
  /\ (forall k : Z,
        filter (fun r => ServiceRequest.priority r =? k) result
        = filter (fun r => ServiceRequest.priority r =? k) (filter (selected flt) all))
  /\ (forall r : ServiceRequest.t,
        In r result <->
        In r all /\ ServiceRequest.status r = "pending"
        /\ (forall p, flt = Some p -> p <> "" -> ServiceRequest.panchayat_id r = p)).
Proof.
  cbv zeta. rewrite get_pending_unfold.
  split; [apply sorted_perm |].
  split; [apply sorted_sorted |].
  split; [intros k; apply sorted_stable |].
  intros r.
  rewrite (Permutation_in' (eq_refl r) (sorted_perm _ _)), filter_In.
  unfold selected. rewrite andb_true_iff, String.eqb_eq.
  split; intros (Hin & H).
  - destruct H as (Hs & Hf). repeat split; auto.
    intros p -> Hp. apply String.eqb_neq in Hp. rewrite Hp in Hf.
    now apply String.eqb_eq.
  - destruct H as (Hs & Hf). repeat split; auto.
    destruct flt as [p |]; [| reflexivity].
    destruct (p =? "")%string eqn:E; [reflexivity |].
    apply String.eqb_eq, Hf; [reflexivity | now apply String.eqb_neq].
Qed.

Lemma get_pending_spec_witness :
  let first := example_request "REQ001" "GP001" "pending" 3 in
  let second := example_request "REQ002" "GP002" "pending" 1 in
  let third := example_request "REQ003" "GP001" "pending" 3 in
  let self :=
    ServiceTracker.create
      (ServiceTracker.create (ServiceTracker.create ServiceTracker.__init__ first) second)
      third in
  In first (ServiceTracker.get_pending self (Some "GP001"))
  /\ ServiceTracker.get_pending self (Some "GP001") = [first; third]
  /\ ServiceTracker.get_pending self None = [second; first; third].
Proof.
  cbv zeta. split; [| split; reflexivity].
  apply get_pending_spec. repeat split.
  - left. reflexivity.
  - intros p [= <-] _. reflexivity.
Defined.

(** C10: the empty string as the unit filter behaves as no filter: the
    result is that of [get_pending()], and holds the pending requests of
    every unit. *)
Theorem get_pending_empty_string_is_no_filter (self : ServiceTracker.t) :
  ServiceTracker.get_pending self (Some "") = ServiceTracker.get_pending self None
  /\ (forall r : ServiceRequest.t,
        In r (ServiceTracker.get_pending self (Some "")) <->
        In r (PyDict.values (ServiceTracker._requests self))
        /\ ServiceRequest.status r = "pending").
Proof.
  split; [reflexivity |].
  intros r. rewrite get_pending_unfold.
  rewrite (Permutation_in' (eq_refl r) (sorted_perm _ _)), filter_In.
  unfold selected. simpl. now rewrite andb_true_r, String.eqb_eq.
Qed.

(** C5: [update_status] on an unknown identifier returns [False] and leaves
    the tracker as it was; on a known one it returns [True], the stored
    request has the new status, and its resolution date is the argument when
    that is a non-empty string and the old date otherwise ([None] or the
    empty string); no other field of the request changes. *)
Theorem update_status_spec (self : ServiceTracker.t) (request_id status : string)
    (resolved_date : option string) :
  match PyDict.get (ServiceTracker._requests self) request_id with
  | None =>
      ServiceTracker.update_status self request_id status resolved_date = (false, self)
  | Some old =>
      let (ok, self') := ServiceTracker.update_status self request_id status resolved_date in
      ok = true
      /\ PyDict.len (ServiceTracker._requests self') = PyDict.len (ServiceTracker._requests self)
      /\ exists req,
           PyDict.get (ServiceTracker._requests self') request_id = Some req
           /\ ServiceRequest.status req = status
           /\ ServiceRequest.resolved_date req
              = match resolved_date with
                | Some "" | None => ServiceRequest.resolved_date old
                | Some d => Some d
                end
           /\ ServiceRequest.set_resolved_date (ServiceRequest.set_status req "") None
              = ServiceRequest.set_resolved_date (ServiceRequest.set_status old "") None
  end.
Proof.
  unfold ServiceTracker.update_status.
  destruct (PyDict.get (ServiceTracker._requests self) request_id) as [old |] eqn:G;
    [| reflexivity].
  split; [reflexivity |].
  split; [simpl; eapply dict_len_set_present; eassumption |].
  eexists. split; [simpl; apply dict_get_set_same |].
  destruct resolved_date as [[| c d] |]; simpl; auto.
Qed.

(** ** PanchayatRegistry *)

(** C8: [get] right after [register] returns the registered unit; when the
    identifier was registered before, the new record takes the place of the
    old one and the number of registered units stays the same. *)
Theorem register_get_spec (self : PanchayatRegistry.t) (panchayat : GramPanchayat.t) :
  PanchayatRegistry.get (PanchayatRegistry.register self panchayat)
    (GramPanchayat.panchayat_id panchayat) = Some panchayat
  /\ (forall old : GramPanchayat.t,
        PanchayatRegistry.get self (GramPanchayat.panchayat_id panchayat) = Some old ->
        List.length (PanchayatRegistry.all_panchayats (PanchayatRegistry.register self panchayat))
        = List.length (PanchayatRegistry.all_panchayats self)).
Proof.
  unfold PanchayatRegistry.get, PanchayatRegistry.register,
    PanchayatRegistry.all_panchayats, PyDict.values. simpl.
  split; [apply dict_get_set_same |].
  intros old H. rewrite !length_map.
  exact (dict_len_set_present _ _ _ _ H).
Qed.

Lemma register_get_spec_witness :
  let first := example_panchayat "GP001" "Rampur" 2000 (PyFloat.Z2F 10) in
  let second := example_panchayat "GP001" "Shyampur" 2500 (PyFloat.Z2F 12) in
  let self := PanchayatRegistry.register PanchayatRegistry.__init__ first in
  PanchayatRegistry.get (PanchayatRegistry.register self second) "GP001" = Some second
  /\ List.length (PanchayatRegistry.all_panchayats (PanchayatRegistry.register self second))
     = List.length (PanchayatRegistry.all_panchayats self).
Proof.
  cbv zeta.
  pose proof (register_get_spec
                (PanchayatRegistry.register PanchayatRegistry.__init__
                   (example_panchayat "GP001" "Rampur" 2000 (PyFloat.Z2F 10)))
                (example_panchayat "GP001" "Shyampur" 2500 (PyFloat.Z2F 12))) as [G L].
  split; [exact G |].
  exact (L (example_panchayat "GP001" "Rampur" 2000 (PyFloat.Z2F 10)) eq_refl).
Defined.

(** ** Floats: comparisons *)

Lemma Z2F_0 : PyFloat.Z2F 0 = PyFloat.Fin false 0.
Proof. reflexivity. Qed.

Lemma fcompare_antisym (x y : PyFloat.float) (c : comparison) :
  PyFloat.fcompare x y = Some c -> PyFloat.fcompare y x = Some (CompOpp c).
Proof.
  destruct x as [| sx | sx mx], y as [| sy | sy my]; simpl; try discriminate;
    intros [= <-]; f_equal.
  - now destruct sx, sy.
  - now destruct sx.
  - now destruct sy.
  - apply Z.compare_antisym.
Qed.

(** [t <= x] excludes [x < t]. *)
Lemma fleb_not_fltb (t x : PyFloat.float) :
  PyFloat.fleb t x = true -> PyFloat.fltb x t = false.
Proof.
  unfold PyFloat.fleb, PyFloat.fltb.
  destruct (PyFloat.fcompare t x) as [c |] eqn:E; [| discriminate].
  rewrite (fcompare_antisym _ _ _ E).
  now destruct c.
Qed.

(** [t < x] excludes [x == t]. *)
Lemma fltb_not_feqb (t x : PyFloat.float) :
  PyFloat.fltb t x = true -> PyFloat.feqb x t = false.
Proof.
  unfold PyFloat.feqb, PyFloat.fltb.
  destruct (PyFloat.fcompare t x) as [c |] eqn:E; [| discriminate].
  rewrite (fcompare_antisym _ _ _ E).
  now destruct c.
Qed.

Lemma float_truediv_nonzero (x y : PyFloat.float) :
  PyFloat.feqb y (PyFloat.Z2F 0) = false ->
  PyFloat.float_truediv x y = Ok (PyFloat.fdiv x y).
Proof.
  unfold PyFloat.float_truediv. now intros ->.
Qed.

Lemma float_truediv_zero (x y : PyFloat.float) :
  PyFloat.feqb y (PyFloat.Z2F 0) = true ->
  PyFloat.float_truediv x y = Raise ZeroDivisionError.
Proof.
  unfold PyFloat.float_truediv. now intros ->.
Qed.

(** ** BudgetAllocation.utilization_pct *)

Lemma utilization_pct_value (a : BudgetAllocation.t) :
  BudgetAllocation.utilization_pct a = Ok (pct_value a).
Proof.
  unfold BudgetAllocation.utilization_pct, pct_value.
  destruct (PyFloat.feqb (BudgetAllocation.allocated_amount a) (PyFloat.Z2F 0)) eqn:E;
    [reflexivity |].
  now rewrite (float_truediv_nonzero _ _ E).
Qed.

(** C6: [utilization_pct] never raises; it is [0.0] when the allocated
    amount equals zero, whatever was utilized (there the unguarded formula
    would divide by zero), and it is the unguarded formula
    [round(utilized / allocated * 100, 1)] otherwise, whose division then
    succeeds. *)
Theorem utilization_pct_spec (a : BudgetAllocation.t) :
  (exists v, BudgetAllocation.utilization_pct a = Ok v)
  /\ if PyFloat.feqb (BudgetAllocation.allocated_amount a) (PyFloat.Z2F 0)
     then BudgetAllocation.utilization_pct a = Ok (PyFloat.Z2F 0)
          /\ unguarded_pct a = Raise ZeroDivisionError
     else BudgetAllocation.utilization_pct a = unguarded_pct a
          /\ unguarded_pct a
             = Ok (PyFloat.round_1
                     (PyFloat.fmul
                        (PyFloat.fdiv (BudgetAllocation.utilized_amount a)
                           (BudgetAllocation.allocated_amount a))
                        (PyFloat.Z2F 100))).
Proof.
  split; [eexists; apply utilization_pct_value |].
  unfold BudgetAllocation.utilization_pct, unguarded_pct.
  destruct (PyFloat.feqb (BudgetAllocation.allocated_amount a) (PyFloat.Z2F 0)) eqn:E.
  - split; [reflexivity |]. now rewrite (float_truediv_zero _ _ E).
  - split; [reflexivity |]. now rewrite (float_truediv_nonzero _ _ E).
Qed.

Example utilization_pct_half :
  BudgetAllocation.utilization_pct (example_allocation "MGNREGA" 500000 250000)
  = Ok (PyFloat.Z2F 50).
Proof. vm_compute. reflexivity. Qed.

Example utilization_pct_zero_allocated :
  BudgetAllocation.utilization_pct (example_allocation "Test" 0 70000)
  = Ok (PyFloat.Z2F 0).
Proof. vm_compute. reflexivity. Qed.

(** The operations agree with the hardware's binary64 arithmetic. *)
Example float_ops_agree_with_hardware :
  let x := PyFloat.Z2F 148000 in
  let y := PyFloat.Z2F 150000 in
  PyFloat.to_prim (PyFloat.fdiv x y)
  = PrimFloat.div (PyFloat.to_prim x) (PyFloat.to_prim y)
  /\ PyFloat.to_prim (PyFloat.fmul (PyFloat.fdiv x y) (PyFloat.Z2F 100))
     = PrimFloat.mul (PrimFloat.div (PyFloat.to_prim x) (PyFloat.to_prim y))
         (PyFloat.to_prim (PyFloat.Z2F 100))
  /\ PyFloat.to_prim (PyFloat.fsub x (PyFloat.fdiv x y))
     = PrimFloat.sub (PyFloat.to_prim x)
         (PrimFloat.div (PyFloat.to_prim x) (PyFloat.to_prim y)).
Proof. vm_compute. repeat split. Qed.

(** ** Floats: rounding to nearest *)

Lemma round_half_even_bounds (a b : Z) :
  0 <= a -> 0 < b ->
  a / b <= PyFloat.round_half_even a b <= a / b + 1.
Proof.
  intros Ha Hb. unfold PyFloat.round_half_even.
  destruct (2 * (a mod b) ?= b); try destruct (Z.even (a / b)); lia.
Qed.

Lemma round_half_even_nonneg (a b : Z) :
  0 <= a -> 0 < b -> 0 <= PyFloat.round_half_even a b.
Proof.
  intros Ha Hb.
  pose proof (round_half_even_bounds a b Ha Hb).
  pose proof (Z.div_pos a b Ha Hb). lia.
Qed.

(** Rounding to nearest does not step over an integer. *)
Lemma round_half_even_le_int (a b M : Z) :
  0 < b -> a <= M * b -> PyFloat.round_half_even a b <= M.
Proof.
  intros Hb Hle. unfold PyFloat.round_half_even.
  pose proof (Z.div_mod a b ltac:(lia)) as E.
  pose proof (Z.mod_pos_bound a b Hb) as R.
  assert (Hq : a / b <= M) by (apply Z.div_le_upper_bound; lia).
  destruct (Z.eq_dec (a / b) M) as [Q | Q].
  - assert (Hr : a mod b = 0) by nia.
    rewrite Hr. destruct (Z.compare_spec (2 * 0) b); lia.
  - destruct (2 * (a mod b) ?= b); try destruct (Z.even (a / b)); lia.
Qed.

Lemma round_half_even_exact (M b : Z) :
  0 < b -> PyFloat.round_half_even (M * b) b = M.
Proof.
  intros Hb. unfold PyFloat.round_half_even.
  rewrite Z.div_mul, Z.mod_mul by lia.
  destruct (Z.compare_spec (2 * 0) b); [lia | reflexivity | lia].
Qed.

Lemma ulp_shift_nonneg (a b : Z) : 0 <= PyFloat.ulp_shift a b.
Proof. unfold PyFloat.ulp_shift. lia. Qed.

(** A representable magnitude is a multiple of every spacing that is not
    coarser than its own. *)
Lemma representable_multiple (B p : Z) :
  representable B = true -> 0 <= p <= Z.max 0 (Z.log2 B - 52) ->
  exists M, B = M * 2 ^ p.
Proof.
  unfold representable. intros H Hp.
  apply andb_true_iff in H as [_ H]. apply Z.eqb_eq in H.
  set (pB := Z.max 0 (Z.log2 B - 52)) in *.
  assert (Hpow : 0 < 2 ^ pB) by (apply Z.pow_pos_nonneg; lia).
  pose proof (Z.div_mod B (2 ^ pB) ltac:(lia)) as E. rewrite H in E.
  exists (B / 2 ^ pB * 2 ^ (pB - p)).
  rewrite <- Z.mul_assoc, <- Z.pow_add_r by lia.
  replace (pB - p + p) with pB by lia. lia.
Qed.

(** Rounding to nearest does not step over a representable number. *)
Lemma nearest_le (neg : bool) (a b B : Z) :
  0 <= a -> 0 < b -> representable B = true -> a <= B * b ->
  exists u, PyFloat.nearest neg a b = PyFloat.Fin neg u /\ 0 <= u <= B.
Proof.
  intros Ha Hb HB Hle.
  assert (HB' := HB). unfold representable in HB'.
  apply andb_true_iff in HB' as [HB' _]. apply andb_true_iff in HB' as [B0 B1].
  apply Z.leb_le in B0. apply Z.ltb_lt in B1.
  assert (Hq : a / b <= B) by (apply Z.div_le_upper_bound; lia).
  assert (Hp : 0 <= PyFloat.ulp_shift a b <= Z.max 0 (Z.log2 B - 52)).
  { split; [apply ulp_shift_nonneg |]. unfold PyFloat.ulp_shift.
    pose proof (Z.log2_le_mono _ _ Hq). lia. }
  destruct (representable_multiple B _ HB Hp) as [M HM].
  unfold PyFloat.nearest.
  set (p := PyFloat.ulp_shift a b) in *.
  assert (Hpow : 0 < 2 ^ p) by (apply Z.pow_pos_nonneg; lia).
  assert (Hr : PyFloat.round_half_even a (b * 2 ^ p) <= M).
  { apply round_half_even_le_int; [lia |]. rewrite HM in Hle. lia. }
  assert (Hr0 : 0 <= PyFloat.round_half_even a (b * 2 ^ p))
    by (apply round_half_even_nonneg; lia).
  assert (Hu : PyFloat.round_half_even a (b * 2 ^ p) * 2 ^ p <= B)
    by (rewrite HM; apply Z.mul_le_mono_nonneg_r; lia).
  replace (PyFloat.huge <=? _) with false by (symmetry; apply Z.leb_gt; lia).
  eexists. split; [reflexivity |]. split; [| exact Hu].
  apply Z.mul_nonneg_nonneg; lia.
Qed.

(** A representable number rounds to itself. *)
Lemma nearest_exact (neg : bool) (b B : Z) :
  0 < b -> representable B = true ->
  PyFloat.nearest neg (B * b) b = PyFloat.Fin neg B.
Proof.
  intros Hb HB.
  assert (HB' := HB). unfold representable in HB'.
  apply andb_true_iff in HB' as [HB' _]. apply andb_true_iff in HB' as [B0 B1].
  apply Z.leb_le in B0. apply Z.ltb_lt in B1.
  unfold PyFloat.nearest, PyFloat.ulp_shift.
  rewrite Z.div_mul by lia.
  set (p := Z.max 0 (Z.log2 B - 52)).
  destruct (representable_multiple B p HB ltac:(lia)) as [M HM].
  replace (B * b) with (M * (b * 2 ^ p)) by (rewrite HM; ring).
  assert (Hpow : 0 < 2 ^ p) by (apply Z.pow_pos_nonneg; lia).
  rewrite round_half_even_exact by lia.
  rewrite <- HM.
  replace (PyFloat.huge <=? B) with false by (symmetry; apply Z.leb_gt; lia).
  reflexivity.
Qed.

Lemma scale_pos : 0 < PyFloat.scale.
Proof. reflexivity. Qed.

Lemma representable_one : representable PyFloat.scale = true.
Proof. vm_compute. reflexivity. Qed.

Lemma representable_hundred : representable (100 * PyFloat.scale) = true.
Proof. vm_compute. reflexivity. Qed.

Lemma Z2F_100 : PyFloat.Z2F 100 = PyFloat.Fin false (100 * PyFloat.scale).
Proof. vm_compute. reflexivity. Qed.

Lemma fmul_one_hundred :
  PyFloat.fmul (PyFloat.Fin false PyFloat.scale) (PyFloat.Z2F 100) = PyFloat.Z2F 100.
Proof. vm_compute. reflexivity. Qed.

Lemma round_1_hundred : PyFloat.round_1 (PyFloat.Z2F 100) = PyFloat.Z2F 100.
Proof. vm_compute. reflexivity. Qed.

(** ** ServiceTracker.resolution_rate *)

Lemma py_sum_ones {A : Type} (l : list A) :
  py_sum (map (fun _ => 1) l) = Z.of_nat (List.length l).
Proof.
  unfold py_sum.
  enough (H : forall acc, fold_left Z.add (map (fun _ : A => 1) l) acc
                          = acc + Z.of_nat (List.length l)) by (rewrite H; lia).
  induction l as [| x l IH]; intros acc; simpl List.length; simpl fold_left.
  - lia.
  - rewrite IH. lia.
Qed.

Lemma filter_andb {A : Type} (f g : A -> bool) (l : list A) :
  filter (fun x => f x && g x) l = filter g (filter f l).
Proof.
  induction l as [| x l IH]; simpl; [reflexivity |].
  destruct (f x); simpl; [destruct (g x) |]; now rewrite IH.
Qed.

Lemma filter_all {A : Type} (g : A -> bool) (l : list A) :
  (forall x, In x l -> g x = true) -> filter g l = l.
Proof.
  induction l as [| x l IH]; simpl; intros H; [reflexivity |].
  rewrite (H x (or_introl eq_refl)). f_equal. apply IH. auto.
Qed.

(** The percentage of [resolved] out of [total]: between 0.0 and 100.0. *)
Lemma rate_bounds (resolved total : Z) :
  0 <= resolved <= total -> 0 < total ->
  exists u,
    (q <- PyFloat.int_truediv resolved total ;;
     Ok (PyFloat.round_1 (PyFloat.fmul q (PyFloat.Z2F 100))))%result
    = Ok (PyFloat.Fin false u)
    /\ 0 <= u <= 100 * PyFloat.scale.
Proof.
  intros Hr Ht. pose proof scale_pos as Hs.
  unfold PyFloat.int_truediv.
  replace (total =? 0) with false by (symmetry; apply Z.eqb_neq; lia).
  replace (resolved <? 0) with false by (symmetry; apply Z.ltb_ge; lia).
  replace (total <? 0) with false by (symmetry; apply Z.ltb_ge; lia).
  rewrite !Z.abs_eq by lia.
  change (xorb false false) with false.
  destruct (nearest_le false (resolved * PyFloat.scale) total PyFloat.scale)
    as (u1 & -> & H1); [nia | lia | apply representable_one | nia |].
  unfold result_bind, PyFloat.fmul. rewrite Z2F_100.
  change (xorb false false) with false.
  destruct (nearest_le false (u1 * (100 * PyFloat.scale)) PyFloat.scale
              (100 * PyFloat.scale))
    as (u2 & -> & H2); [nia | lia | apply representable_hundred | nia |].
  unfold PyFloat.round_1.
  assert (H10 : PyFloat.round_half_even (10 * u2) PyFloat.scale <= 1000)
    by (apply round_half_even_le_int; lia).
  assert (H10' : 0 <= PyFloat.round_half_even (10 * u2) PyFloat.scale)
    by (apply round_half_even_nonneg; lia).
  destruct (nearest_le false
              (PyFloat.round_half_even (10 * u2) PyFloat.scale * PyFloat.scale) 10
              (100 * PyFloat.scale))
    as (u3 & -> & H3); [nia | lia | apply representable_hundred | nia |].
  exists u3. split; [reflexivity | exact H3].
Qed.

(** All of them resolved: exactly 100.0. *)
Lemma rate_all (total : Z) :
  0 < total ->
  (q <- PyFloat.int_truediv total total ;;
   Ok (PyFloat.round_1 (PyFloat.fmul q (PyFloat.Z2F 100))))%result
  = Ok (PyFloat.Z2F 100).
Proof.
  intros Ht. unfold PyFloat.int_truediv.
  replace (total =? 0) with false by (symmetry; apply Z.eqb_neq; lia).
  replace (total <? 0) with false by (symmetry; apply Z.ltb_ge; lia).
  rewrite !Z.abs_eq by lia.
  change (xorb false false) with false.
  rewrite (Z.mul_comm total), nearest_exact by (lia || apply representable_one).
  unfold result_bind.
  now rewrite fmul_one_hundred, round_1_hundred.
Qed.

(** C7: [resolution_rate] is the number of the unit's requests whose status
    is the string [resolved], divided by the number of the unit's requests,
    times 100, rounded to one decimal; it never raises and lies between 0
    and 100; it is 0.0 for a unit with no request, and 100.0 when the unit
    has requests and all of them are resolved. *)
Theorem resolution_rate_spec (self : ServiceTracker.t) (panchayat_id : string) :
  let requests :=
    filter (fun r => (ServiceRequest.panchayat_id r =? panchayat_id)%string)
           (PyDict.values (ServiceTracker._requests self)) in
  let is_resolved := fun r => (ServiceRequest.status r =? "resolved")%string in
  let total := Z.of_nat (List.length requests) in
  let resolved := Z.of_nat (List.length (filter is_resolved requests)) in
  ServiceTracker.resolution_rate self panchayat_id
  = (if total >? 0 then
       (q <- PyFloat.int_truediv resolved total ;;
        Ok (PyFloat.round_1 (PyFloat.fmul q (PyFloat.Z2F 100))))%result
     else Ok (PyFloat.Z2F 0))
  /\ (exists v,
        ServiceTracker.resolution_rate self panchayat_id = Ok v
        /\ PyFloat.fleb (PyFloat.Z2F 0) v = true
        /\ PyFloat.fleb v (PyFloat.Z2F 100) = true)
  /\ (requests = [] ->
      ServiceTracker.resolution_rate self panchayat_id = Ok (PyFloat.Z2F 0))
  /\ (requests <> [] ->
      (forall r, In r requests -> ServiceRequest.status r = "resolved") ->
      ServiceTracker.resolution_rate self panchayat_id = Ok (PyFloat.Z2F 100)).
Proof.
  cbv zeta.
  set (requests := filter _ (PyDict.values (ServiceTracker._requests self))).
  set (is_resolved := fun r => (ServiceRequest.status r =? "resolved")%string).
  assert (E : ServiceTracker.resolution_rate self panchayat_id
              = if Z.of_nat (List.length requests) >? 0 then
                  (q <- PyFloat.int_truediv
                          (Z.of_nat (List.length (filter is_resolved requests)))
                          (Z.of_nat (List.length requests)) ;;
                   Ok (PyFloat.round_1 (PyFloat.fmul q (PyFloat.Z2F 100))))%result
                else Ok (PyFloat.Z2F 0)).
  { unfold ServiceTracker.resolution_rate.
    rewrite !py_sum_ones, filter_andb. reflexivity. }
  pose proof (filter_length_le is_resolved requests) as Hle.
  split; [exact E |]. rewrite E. clear E.
  split; [| split].
  - destruct (Z.of_nat (List.length requests) >? 0) eqn:T.
    + destruct (rate_bounds (Z.of_nat (List.length (filter is_resolved requests)))
                  (Z.of_nat (List.length requests))) as (u & -> & Hu); [lia | lia |].
      exists (PyFloat.Fin false u). split; [reflexivity |].
      rewrite Z2F_0, Z2F_100. unfold PyFloat.fleb, PyFloat.fcompare, PyFloat.signed.
      split.
      * destruct (Z.compare_spec 0 u); (reflexivity || lia).
      * destruct (Z.compare_spec u (100 * PyFloat.scale)); (reflexivity || lia).
    + exists (PyFloat.Z2F 0). repeat split; vm_compute; reflexivity.
  - intros ->. reflexivity.
  - intros Hne Hall.
    rewrite (filter_all is_resolved requests)
      by (intros r Hr; apply String.eqb_eq; auto).
    replace (Z.of_nat (List.length requests) >? 0) with true.
    + apply rate_all. destruct requests; [congruence | simpl; lia].
    + symmetry. apply Z.gtb_lt. destruct requests; [congruence | simpl; lia].
Qed.

Lemma resolution_rate_spec_witness :
  let self :=
    ServiceTracker.create
      (ServiceTracker.create
         (ServiceTracker.create ServiceTracker.__init__
            (example_request "REQ001" "GP001" "resolved" 2))
         (example_request "REQ002" "GP002" "pending" 1))
      (example_request "REQ003" "GP001" "resolved" 3) in
  ServiceTracker.resolution_rate self "GP001" = Ok (PyFloat.Z2F 100)
  /\ ServiceTracker.resolution_rate self "GP003" = Ok (PyFloat.Z2F 0).
Proof.
  cbv zeta. split.
  - apply resolution_rate_spec.
    + vm_compute. discriminate.
    + intros r Hr. vm_compute in Hr.
      destruct Hr as [<- | [<- | []]]; reflexivity.
  - apply resolution_rate_spec. reflexivity.
Defined.

(** ** PanchayatRegistry.population_density *)

Lemma representable_max : representable (float_max_int * PyFloat.scale) = true.
Proof. vm_compute. reflexivity. Qed.

Lemma float_of_int_in_range (n : Z) :
  Z.abs n <= float_max_int -> PyFloat.float_of_int n = Ok (PyFloat.Z2F n).
Proof.
  intros Hn. pose proof scale_pos as Hs.
  unfold PyFloat.float_of_int, PyFloat.Z2F.
  destruct (nearest_le (n <? 0) (Z.abs n * PyFloat.scale) 1 (float_max_int * PyFloat.scale))
    as (u & -> & _); [nia | lia | apply representable_max | nia |].
  reflexivity.
Qed.

Lemma huge_eq : PyFloat.huge = 2 ^ 1024 * PyFloat.scale.
Proof. reflexivity. Qed.

Lemma log2_huge : Z.log2 PyFloat.huge = 2098.
Proof. reflexivity. Qed.

(** An integer from [2^1024] on does not convert to a float. *)
Lemma float_of_int_overflow (n : Z) :
  2 ^ 1024 <= Z.abs n -> PyFloat.float_of_int n = Raise OverflowError.
Proof.
  intros Hn. pose proof scale_pos as Hs.
  unfold PyFloat.float_of_int, PyFloat.nearest, PyFloat.ulp_shift.
  set (a := Z.abs n * PyFloat.scale).
  assert (Ha : PyFloat.huge <= a)
    by (rewrite huge_eq; unfold a; apply Z.mul_le_mono_nonneg_r; lia).
  assert (Hh : 0 < PyFloat.huge) by reflexivity.
  rewrite Z.div_1_r, Z.mul_1_l.
  pose proof (Z.log2_le_mono _ _ Ha) as Hl. rewrite log2_huge in Hl.
  rewrite Z.max_r by lia.
  set (p := Z.log2 a - 52).
  assert (Hpow : 0 < 2 ^ p) by (apply Z.pow_pos_nonneg; lia).
  assert (Hspec : 2 ^ Z.log2 a <= a) by (apply Z.log2_spec; lia).
  assert (Hsplit : 2 ^ Z.log2 a = 2 ^ p * 2 ^ 52)
    by (rewrite <- Z.pow_add_r by lia; f_equal; lia).
  assert (Hq : 2 ^ 52 <= a / 2 ^ p)
    by (apply Z.div_le_lower_bound; [exact Hpow | lia]).
  pose proof (round_half_even_bounds a (2 ^ p) ltac:(lia) Hpow) as [Hr _].
  assert (Hbig : PyFloat.huge <= 2 ^ Z.log2 a).
  { replace PyFloat.huge with (2 ^ 2098) by reflexivity.
    apply Z.pow_le_mono_r; lia. }
  assert (Hu : PyFloat.huge <= PyFloat.round_half_even a (2 ^ p) * 2 ^ p).
  { apply Z.le_trans with (2 ^ 52 * 2 ^ p); [lia |].
    apply Z.mul_le_mono_nonneg_r; lia. }
  apply Z.leb_le in Hu. rewrite Hu. reflexivity.
Qed.

(** C4, as stated, fails: for a registered unit of positive area whose
    population does not fit a float, Python's [population / area] raises
    [OverflowError], so [population_density] returns nothing; here the
    population is [10^400] and the area 10.0. *)
Lemma population_density_overflow :
  let p := example_panchayat "GP001" "Rampur" (10 ^ 400) (PyFloat.Z2F 10) in
  let self := PanchayatRegistry.register PanchayatRegistry.__init__ p in
  PanchayatRegistry.get self "GP001" = Some p
  /\ PyFloat.fltb (PyFloat.Z2F 0) (GramPanchayat.area_sq_km p) = true
  /\ PanchayatRegistry.population_density self "GP001" = Raise OverflowError.
Proof.
  cbv zeta. split; [reflexivity |]. split; vm_compute; reflexivity.
Qed.

(** C4, amended: [population_density] is [0.0] for an identifier that is not
    registered and for a registered unit whose area equals zero (the same
    value in both cases); for a registered unit of positive area it is the
    outcome of Python's [population / area] rounded to one decimal: the
    population divided by the area, rounded, when the population is at most
    the largest finite float, and [OverflowError] when the population is
    [2^1024] or more. *)
Theorem population_density_spec (self : PanchayatRegistry.t) (panchayat_id : string) :
  match PanchayatRegistry.get self panchayat_id with
  | None => PanchayatRegistry.population_density self panchayat_id = Ok (PyFloat.Z2F 0)
  | Some p =>
      let population := GramPanchayat.population p in
      let area := GramPanchayat.area_sq_km p in
      (PyFloat.feqb area (PyFloat.Z2F 0) = true ->
       PanchayatRegistry.population_density self panchayat_id = Ok (PyFloat.Z2F 0))
      /\ (PyFloat.fltb (PyFloat.Z2F 0) area = true ->
          PanchayatRegistry.population_density self panchayat_id
          = (x <- PyFloat.float_of_int population ;;
             Ok (PyFloat.round_1 (PyFloat.fdiv x area)))%result
          /\ (Z.abs population <= float_max_int ->
              PanchayatRegistry.population_density self panchayat_id
              = Ok (PyFloat.round_1 (PyFloat.fdiv (PyFloat.Z2F population) area)))
          /\ (2 ^ 1024 <= Z.abs population ->
              PanchayatRegistry.population_density self panchayat_id
              = Raise OverflowError))
  end.
Proof.
  unfold PanchayatRegistry.get, PanchayatRegistry.population_density.
  destruct (PyDict.get (PanchayatRegistry._panchayats self) panchayat_id) as [p |];
    [| reflexivity].
  cbv zeta. split.
  - now intros ->.
  - intros Hpos. apply fltb_not_feqb in Hpos. rewrite Hpos.
    unfold PyFloat.int_float_truediv.
    assert (E : forall x, PyFloat.float_truediv x (GramPanchayat.area_sq_km p)
                          = Ok (PyFloat.fdiv x (GramPanchayat.area_sq_km p)))
      by (intros x; now apply float_truediv_nonzero).
    split; [| split].
    + destruct (PyFloat.float_of_int (GramPanchayat.population p)); simpl;
        [now rewrite E | reflexivity].
    + intros Hn. rewrite (float_of_int_in_range _ Hn). simpl. now rewrite E.
    + intros Hn. rewrite (float_of_int_overflow _ Hn). reflexivity.
Qed.

Lemma population_density_spec_witness :
  let self :=
    PanchayatRegistry.register PanchayatRegistry.__init__
      (example_panchayat "GP001" "Rampur" 2000 (PyFloat.Z2F 10)) in
  PanchayatRegistry.population_density self "GP001" = Ok (PyFloat.Z2F 200)
  /\ PanchayatRegistry.population_density self "GP002" = Ok (PyFloat.Z2F 0).
Proof.
  cbv zeta.
  set (p := example_panchayat "GP001" "Rampur" 2000 (PyFloat.Z2F 10)).
  set (self := PanchayatRegistry.register PanchayatRegistry.__init__ p).
  split.
  - pose proof (population_density_spec self "GP001") as H.
    change (PanchayatRegistry.get self "GP001") with (Some p) in H.
    cbv beta iota zeta in H.
    destruct H as [_ H].
    destruct (H ltac:(vm_compute; reflexivity)) as (_ & H2 & _).
    etransitivity; [apply H2; vm_compute; discriminate | vm_compute; reflexivity].
  - exact (population_density_spec self "GP002").
Defined.

(** ** BudgetAnalyzer *)

Lemma filter_result_total {A : Type} (f : A -> result bool) (g : A -> bool) (l : list A) :
  (forall x, f x = Ok (g x)) -> filter_result f l = Ok (filter g l).
Proof.
  intros H. induction l as [| x l IH]; simpl; [reflexivity |].
  rewrite H, IH. reflexivity.
Qed.

Lemma map_result_total {A B : Type} (f : A -> result B) (g : A -> B) (l : list A) :
  (forall x, f x = Ok (g x)) -> map_result f l = Ok (map g l).
Proof.
  intros H. induction l as [| x l IH]; simpl; [reflexivity |].
  rewrite H, IH. reflexivity.
Qed.

Lemma under_utilized_value (self : BudgetAnalyzer.t) (panchayat_id year : string)
    (threshold : PyFloat.float) :
  BudgetAnalyzer.under_utilized self panchayat_id year threshold
  = Ok (filter (fun a => matching panchayat_id year a
                         && PyFloat.fltb (pct_value a) threshold)
               (BudgetAnalyzer._allocations self)).
Proof.
  apply filter_result_total. intros a. unfold matching.
  destruct (_ && _); [| reflexivity].
  now rewrite utilization_pct_value.
Qed.

Lemma recommend_reallocation_value (self : BudgetAnalyzer.t) (panchayat_id year : string) :
  BudgetAnalyzer.recommend_reallocation self panchayat_id year
  = Ok (map recommendation_for
          (filter (fun a => matching panchayat_id year a
                            && PyFloat.fltb (pct_value a) (PyFloat.Z2F 50))
                  (BudgetAnalyzer._allocations self))).
Proof.
  unfold BudgetAnalyzer.recommend_reallocation.
  rewrite under_utilized_value. simpl result_bind.
  apply map_result_total. intros a.
  now rewrite utilization_pct_value.
Qed.

(** C3: [recommend_reallocation] returns one line per record of the unit and
    year whose utilization percentage ([pct_value], the float that
    [utilization_pct] returns) is below 50.0, in the order of
    [under_utilized]; the line names the scheme, the unspent amount and the
    percentage; there is no line when every record of the unit and year is
    at 50.0 or above; and in the scenario (64.0, 95.0, 30.0 and 98.7 per
    cent) the only line is the one for PMAY-Gramin, with 210,000 unspent. *)
Theorem recommend_reallocation_spec (self : BudgetAnalyzer.t) (panchayat_id year : string) :
  let under :=
    filter (fun a => matching panchayat_id year a
                     && PyFloat.fltb (pct_value a) (PyFloat.Z2F 50))
           (BudgetAnalyzer._allocations self) in
  BudgetAnalyzer.under_utilized self panchayat_id year BudgetAnalyzer.default_threshold
  = Ok under
  /\ BudgetAnalyzer.recommend_reallocation self panchayat_id year
     = Ok (map recommendation_for under)
  /\ (forall a,
        recommendation_for a
        = ("Reallocate Rs "
           ++ PyFloat.format_0f true
                (PyFloat.fsub (BudgetAllocation.allocated_amount a)
                   (BudgetAllocation.utilized_amount a))
           ++ " from " ++ BudgetAllocation.scheme_name a
           ++ " (only " ++ PyFloat.format_0f false (pct_value a)
           ++ "% utilized) to higher-need areas")%string)
  /\ ((forall a,
         In a (BudgetAnalyzer._allocations self) ->
         matching panchayat_id year a = true ->
         PyFloat.fleb (PyFloat.Z2F 50) (pct_value a) = true) ->
      BudgetAnalyzer.recommend_reallocation self panchayat_id year = Ok [])
  /\ map pct_value (BudgetAnalyzer._allocations scenario)
     = [PyFloat.Z2F 64; PyFloat.Z2F 95; PyFloat.Z2F 30;
        PyFloat.fdiv (PyFloat.Z2F 987) (PyFloat.Z2F 10)]
  /\ BudgetAnalyzer.recommend_reallocation scenario "GP001" "2024-25"
     = Ok ["Reallocate Rs 210,000 from PMAY-Gramin (only 30% utilized) to higher-need areas"].
Proof.
  cbv zeta.
  split; [apply under_utilized_value |].
  split; [apply recommend_reallocation_value |].
  split; [reflexivity |].
  split; [| split; vm_compute; reflexivity].
  intros H. rewrite recommend_reallocation_value.
  replace (filter _ (BudgetAnalyzer._allocations self)) with (@nil BudgetAllocation.t);
    [reflexivity |].
  symmetry.
  induction (BudgetAnalyzer._allocations self) as [| a l IH]; [reflexivity |].
  simpl. rewrite IH by (intros; apply H; simpl; auto).
  destruct (matching panchayat_id year a) eqn:E; [| reflexivity].
  rewrite fleb_not_fltb by (apply H; simpl; auto).
  reflexivity.
Qed.

Lemma recommend_reallocation_spec_witness :
  let self :=
    BudgetAnalyzer.add
      (BudgetAnalyzer.add BudgetAnalyzer.__init__
         (example_allocation "MGNREGA" 500000 320000))
      (example_allocation "Jal Jeevan Mission" 800000 400000) in
  BudgetAnalyzer.recommend_reallocation self "GP001" "2024-25" = Ok [].
Proof.
  cbv zeta. apply recommend_reallocation_spec.
  intros a Ha _. vm_compute in Ha.
  destruct Ha as [<- | [<- | []]]; vm_compute; reflexivity.
Defined.

(** ** The store *)

Section StoreFacts.

Import Store.

Lemma nth_error_extend (h h2 : heap) (r : ref) (o : object) :
  nth_error h r = Some o -> nth_error (h ++ h2) r = Some o.
Proof.
  intros H. rewrite nth_error_app1; [exact H |].
  apply nth_error_Some. congruence.
Qed.

Lemma nth_error_last (h : heap) (o : object) :
  nth_error (h ++ [o]) (List.length h) = Some o.
Proof. induction h; simpl; auto. Qed.

Lemma heap_set_last (h : heap) (o o' : object) :
  heap_set (h ++ [o]) (List.length h) o' = h ++ [o'].
Proof. induction h; simpl; congruence. Qed.

Lemma list_append_last (h : heap) (acc : list ref) (x : ref) :
  list_append (List.length h) x (h ++ [ObjList acc])
  = Some (tt, h ++ [ObjList (acc ++ [x])]).
Proof.
  unfold list_append. now rewrite nth_error_last, heap_set_last.
Qed.

Lemma deref_all_extend (h h2 : heap) (items : list ref) (cat : list SchemeInfo.t) :
  SchemeMapper.deref_all h items = Some cat ->
  SchemeMapper.deref_all (h ++ h2) items = Some cat.
Proof.
  revert cat. induction items as [| x items IH]; simpl; intros cat H; [exact H |].
  destruct (nth_error h x) as [[s | l] |] eqn:E; try discriminate.
  destruct (SchemeMapper.deref_all h items) as [rest |]; try discriminate.
  now rewrite (nth_error_extend _ _ _ _ E), (IH _ eq_refl).
Qed.

End StoreFacts.

(** ** SchemeMapper *)

Section MapperFacts.

Import Store.

Lemma deref_chosen (h : heap) (cond : SchemeInfo.t -> bool) (items : list ref)
    (cat : list SchemeInfo.t) :
  SchemeMapper.deref_all h items = Some cat ->
  SchemeMapper.deref_all h (chosen cond items cat) = Some (filter cond cat).
Proof.
  revert cat. induction items as [| x items IH]; simpl; intros cat H.
  - injection H as <-. reflexivity.
  - destruct (nth_error h x) as [[s | l] |] eqn:E; try discriminate.
    destruct (SchemeMapper.deref_all h items) as [rest |]; try discriminate.
    injection H as <-. simpl.
    destruct (cond s); simpl; [rewrite E |]; now rewrite (IH _ eq_refl).
Qed.

Lemma chosen_incl (cond : SchemeInfo.t -> bool) (items : list ref)
    (cat : list SchemeInfo.t) :
  incl (chosen cond items cat) items.
Proof.
  revert cat. induction items as [| x items IH]; intros [| s cat]; simpl;
    try apply incl_nil_l.
  destruct (cond s).
  - apply incl_cons; [now left | apply incl_tl, IH].
  - apply incl_tl, IH.
Qed.

Lemma find_eligible_step_last (p : GramPanchayat.t) (h : heap) (acc : list ref)
    (scheme : ref) (s : SchemeInfo.t) :
  nth_error h scheme = Some (ObjScheme s) ->
  SchemeMapper.find_eligible_step p (List.length h) scheme (h ++ [ObjList acc])
  = Some (tt, h ++ [ObjList (if eligible_by_tag (SchemeInfo.eligible_panchayats s)
                                  (GramPanchayat.population p)
                             then acc ++ [scheme] else acc)]).
Proof.
  intros H.
  unfold SchemeMapper.find_eligible_step, bind, read_scheme.
  rewrite (nth_error_extend _ _ _ _ H).
  unfold eligible_by_tag, SchemeMapper.in_tuple, existsb.
  set (ep := SchemeInfo.eligible_panchayats s).
  destruct (ep =? "all")%string, (ep =? "all_rural")%string, (ep =? "all_bpl")%string,
    (ep =? "farming_households")%string, (ep =? "houseless_kutcha")%string,
    (ep =? "census_towns")%string, (ep =? "unconnected_habitations")%string,
    (GramPanchayat.population p >? 5000), (GramPanchayat.population p >=? 250);
    cbn [orb andb]; (apply list_append_last || reflexivity).
Qed.

Lemma find_eligible_loop (p : GramPanchayat.t) (h : heap) (items : list ref)
    (cat : list SchemeInfo.t) (acc : list ref) :
  SchemeMapper.deref_all h items = Some cat ->
  SchemeMapper.for_each items (SchemeMapper.find_eligible_step p (List.length h))
    (h ++ [ObjList acc])
  = Some (tt, h ++ [ObjList (acc ++ chosen (fun s => eligible_by_tag
                                               (SchemeInfo.eligible_panchayats s)
                                               (GramPanchayat.population p))
                                      items cat)]).
Proof.
  revert cat acc. induction items as [| x items IH]; simpl; intros cat acc H.
  - injection H as <-. unfold ret. now rewrite app_nil_r.
  - destruct (nth_error h x) as [[s | l] |] eqn:E; try discriminate.
    destruct (SchemeMapper.deref_all h items) as [rest |] eqn:D; try discriminate.
    injection H as <-.
    unfold bind at 1. rewrite (find_eligible_step_last p h acc x s E).
    rewrite (IH rest _ eq_refl).
    destruct (eligible_by_tag _ _); [now rewrite <- app_assoc | reflexivity].
Qed.

Lemma select_chosen (h : heap) (cond : SchemeInfo.t -> bool) (items : list ref)
    (cat : list SchemeInfo.t) :
  SchemeMapper.deref_all h items = Some cat ->
  SchemeMapper.select cond items h = Some (chosen cond items cat, h).
Proof.
  revert cat. induction items as [| x items IH]; simpl; intros cat H.
  - injection H as <-. reflexivity.
  - destruct (nth_error h x) as [[s | l] |] eqn:E; try discriminate.
    destruct (SchemeMapper.deref_all h items) as [rest |] eqn:D; try discriminate.
    injection H as <-.
    unfold bind, read_scheme. rewrite E.
    fold (bind (SchemeMapper.select cond items) (fun rest0 =>
            ret (if cond s then x :: rest0 else rest0)) h).
    unfold bind. rewrite (IH rest eq_refl). reflexivity.
Qed.

End MapperFacts.

Section MapperOperations.

Import Store.

Variables (h : heap) (self : SchemeMapper.t) (items : list ref) (cat : list SchemeInfo.t).

Hypothesis catalog_list : nth_error h (SchemeMapper._schemes self) = Some (ObjList items).
Hypothesis catalog_items : SchemeMapper.deref_all h items = Some cat.

Lemma view_catalog_extend (h2 : heap) :
  SchemeMapper.view (h ++ h2) (SchemeMapper._schemes self) = Some cat.
Proof.
  unfold SchemeMapper.view.
  rewrite (nth_error_extend _ _ _ _ catalog_list).
  now apply deref_all_extend.
Qed.

Lemma view_last (found : list ref) (c : list SchemeInfo.t) :
  SchemeMapper.deref_all h found = Some c ->
  SchemeMapper.view (h ++ [ObjList found]) (List.length h) = Some c.
Proof.
  intros H. unfold SchemeMapper.view.
  rewrite nth_error_last. now apply deref_all_extend.
Qed.

Lemma all_schemes_value :
  SchemeMapper.all_schemes self h = Some (List.length h, h ++ [ObjList items]).
Proof.
  unfold SchemeMapper.all_schemes, bind, read_list. now rewrite catalog_list.
Qed.

Lemma find_eligible_none_value :
  SchemeMapper.find_eligible self None h = Some (List.length h, h ++ [ObjList items]).
Proof.
  unfold SchemeMapper.find_eligible, bind, read_list. now rewrite catalog_list.
Qed.

Lemma find_eligible_some_value (p : GramPanchayat.t) :
  SchemeMapper.find_eligible self (Some p) h
  = Some (List.length h,
          h ++ [ObjList (chosen (fun s => eligible_by_tag
                                            (SchemeInfo.eligible_panchayats s)
                                            (GramPanchayat.population p))
                           items cat)]).
Proof.
  unfold SchemeMapper.find_eligible, bind at 1, alloc.
  unfold bind at 1, read_list.
  rewrite (nth_error_extend _ _ _ _ catalog_list).
  unfold bind. rewrite (find_eligible_loop p h items cat [] catalog_items).
  reflexivity.
Qed.

Lemma search_value (lower : string -> string) (query : string) :
  SchemeMapper.search lower self query h
  = Some (List.length h,
          h ++ [ObjList (chosen
                           (fun s =>
                              SchemeMapper.contains (lower query) (lower (SchemeInfo.name s))
                              || SchemeMapper.contains (lower query)
                                   (lower (SchemeInfo.description s)))
                           items cat)]).
Proof.
  unfold SchemeMapper.search, bind at 1, read_list. rewrite catalog_list.
  unfold bind. rewrite (select_chosen h _ items cat catalog_items).
  reflexivity.
Qed.

End MapperOperations.

Lemma eligible_by_tag_rules (tag : string) (population : Z) :
  eligible_by_tag tag population = true <->
  In tag ["all"; "all_rural"; "all_bpl"; "farming_households"; "houseless_kutcha"]
  \/ (tag = "census_towns" /\ population > 5000)
  \/ (tag = "unconnected_habitations" /\ population >= 250).
Proof.
  unfold eligible_by_tag, SchemeMapper.in_tuple.
  rewrite !orb_true_iff, !andb_true_iff, existsb_exists, !String.eqb_eq.
  rewrite Z.gtb_lt, Z.geb_le.
  split.
  - intros [[(x & Hx & E) | H] | H].
    + left. apply String.eqb_eq in E. now subst.
    + right. left. split; [tauto | lia].
    + right. right. split; [tauto | lia].
  - intros [H | [H | H]].
    + left. left. exists tag. split; [exact H | apply String.eqb_refl].
    + left. right. split; [tauto | lia].
    + right. split; [tauto | lia].
Qed.

(** C2: for a mapper whose list holds the schemes [cat], [find_eligible]
    with a unit returns, in catalog order, exactly the schemes that the tag
    rules admit: always for the tags all, all_rural, all_bpl,
    farming_households and houseless_kutcha, for census_towns iff the
    population is above 5000, for unconnected_habitations iff it is at
    least 250, and never for another tag; without a unit it returns the
    whole catalog. *)
Theorem find_eligible_spec (h : Store.heap) (self : SchemeMapper.t)
    (items : list Store.ref) (cat : list SchemeInfo.t) :
  nth_error h (SchemeMapper._schemes self) = Some (Store.ObjList items) ->
  SchemeMapper.deref_all h items = Some cat ->
  (forall p : GramPanchayat.t,
     exists l h',
       SchemeMapper.find_eligible self (Some p) h = Some (l, h')
       /\ SchemeMapper.view h' l
          = Some (filter (fun s => eligible_by_tag (SchemeInfo.eligible_panchayats s)
                                     (GramPanchayat.population p))
                    cat))
  /\ (exists l h',
        SchemeMapper.find_eligible self None h = Some (l, h')
        /\ SchemeMapper.view h' l = Some cat)
  /\ (forall (tag : string) (population : Z),
        eligible_by_tag tag population = true <->
        In tag ["all"; "all_rural"; "all_bpl"; "farming_households"; "houseless_kutcha"]
        \/ (tag = "census_towns" /\ population > 5000)
        \/ (tag = "unconnected_habitations" /\ population >= 250)).
Proof.
  intros Hl Hi. split; [| split].
  - intros p. eexists _, _. split.
    + apply (find_eligible_some_value h self items cat Hl Hi).
    + apply view_last. now apply deref_chosen.
  - eexists _, _. split.
    + apply (find_eligible_none_value h self items Hl).
    + now apply view_last.
  - apply eligible_by_tag_rules.
Qed.

Lemma find_eligible_spec_witness :
  exists l h',
    SchemeMapper.find_eligible (fst constructed)
      (Some (example_panchayat "GP001" "Rampur" 5000 (PyFloat.Z2F 10))) (snd constructed)
    = Some (l, h')
    /\ option_map (map SchemeInfo.name) (SchemeMapper.view h' l)
       = Some ["MGNREGA"; "PMAY-Gramin"; "Swachh Bharat Mission (Gramin)"; "PMGSY";
               "National Health Mission"; "Samagra Shiksha";
               "National Rural Livelihood Mission"; "DDU-GKY"; "Jal Jeevan Mission";
               "PM-KISAN"; "RKVY-RAFTAAR"; "ICDS/Poshan Abhiyaan";
               "Mid-Day Meal (PM-POSHAN)"; "NSAP (National Social Assistance)"].
Proof.
  destruct (find_eligible_spec (snd constructed) (fst constructed)
              (seq 0 15) SchemeMapper.scheme_literals eq_refl eq_refl) as [H _].
  destruct (H (example_panchayat "GP001" "Rampur" 5000 (PyFloat.Z2F 10)))
    as (l & h' & E & V).
  exists l, h'. split; [exact E |].
  rewrite V. reflexivity.
Defined.

Example find_eligible_population_6000 :
  option_map (fun r => option_map (map SchemeInfo.name) (SchemeMapper.view (snd r) (fst r)))
    (SchemeMapper.find_eligible (fst constructed)
       (Some (example_panchayat "GP001" "Rampur" 6000 (PyFloat.Z2F 10))) (snd constructed))
  = Some (Some (map SchemeInfo.name SchemeMapper.scheme_literals)).
Proof. reflexivity. Qed.

Example find_eligible_population_200 :
  option_map (fun r => option_map (map SchemeInfo.name) (SchemeMapper.view (snd r) (fst r)))
    (SchemeMapper.find_eligible (fst constructed)
       (Some (example_panchayat "GP001" "Rampur" 200 (PyFloat.Z2F 10))) (snd constructed))
  = Some (Some ["MGNREGA"; "PMAY-Gramin"; "Swachh Bharat Mission (Gramin)";
                "National Health Mission"; "Samagra Shiksha";
                "National Rural Livelihood Mission"; "DDU-GKY"; "Jal Jeevan Mission";
                "PM-KISAN"; "RKVY-RAFTAAR"; "ICDS/Poshan Abhiyaan";
                "Mid-Day Meal (PM-POSHAN)"; "NSAP (National Social Assistance)"]).
Proof. reflexivity. Qed.

(** C9, as stated, fails: the list that [all_schemes] returns holds the
    canonical records themselves.  Its first item is the first item of
    [_SCHEMES]; assigning to the [name] of that item changes the record that
    [_SCHEMES] and the mapper's own list hold. *)
Lemma returned_list_reaches_canonical_records :
  exists (l first : Store.ref) (rest : list Store.ref) (h1 h2 : Store.heap),
    SchemeMapper.all_schemes (fst constructed) (snd constructed) = Some (l, h1)
    /\ nth_error h1 l = Some (Store.ObjList (first :: rest))
    /\ nth_error h1 SchemeMapper._SCHEMES = Some (Store.ObjList (first :: rest))
    /\ Store.setattr_name first "renamed" h1 = Some (tt, h2)
    /\ option_map (fun c => map SchemeInfo.name (firstn 2 c))
         (SchemeMapper.view h1 SchemeMapper._SCHEMES)
       = Some ["MGNREGA"; "PMAY-Gramin"]
    /\ option_map (fun c => map SchemeInfo.name (firstn 2 c))
         (SchemeMapper.view h2 SchemeMapper._SCHEMES)
       = Some ["renamed"; "PMAY-Gramin"]
    /\ option_map (fun c => map SchemeInfo.name (firstn 2 c))
         (SchemeMapper.view h2 (SchemeMapper._schemes (fst constructed)))
       = Some ["renamed"; "PMAY-Gramin"].
Proof.
  eexists _, _, _, _, _.
  split; [reflexivity |].
  split; [reflexivity |].
  split; [reflexivity |].
  split; [reflexivity |].
  repeat split.
Qed.

(** C9, amended: the catalog that a mapper holds at construction consists of
    the 15 records of [_SCHEMES]; an operation ([all_schemes], [search],
    [find_eligible]) changes no object of the store, it only adds the list
    it returns; that list is a new object, so appending to it leaves the
    catalog as it was; its items are items of the catalog, that is, the
    records themselves and not copies. *)
Theorem catalog_spec (lower : string -> string) (h : Store.heap) (self : SchemeMapper.t)
    (items : list Store.ref) (cat : list SchemeInfo.t) (op : operation) :
  nth_error h (SchemeMapper._schemes self) = Some (Store.ObjList items) ->
  SchemeMapper.deref_all h items = Some cat ->
  (List.length SchemeMapper.scheme_literals = 15%nat
   /\ SchemeMapper.load_module [] = Some (SchemeMapper._SCHEMES, SchemeMapper.module_heap)
   /\ SchemeMapper.__init__ SchemeMapper.module_heap = Some constructed
   /\ SchemeMapper.view (snd constructed) (SchemeMapper._schemes (fst constructed))
      = Some SchemeMapper.scheme_literals
   /\ SchemeMapper._schemes (fst constructed) <> SchemeMapper._SCHEMES)
  /\ exists found : list Store.ref,
       run lower self op h = Some (List.length h, h ++ [Store.ObjList found])
       /\ List.length h <> SchemeMapper._schemes self
       /\ SchemeMapper.view (h ++ [Store.ObjList found]) (SchemeMapper._schemes self)
          = Some cat
       /\ incl found items
       /\ forall x : Store.ref,
            exists h'',
              Store.list_append (List.length h) x (h ++ [Store.ObjList found])
              = Some (tt, h'')
              /\ SchemeMapper.view h'' (SchemeMapper._schemes self) = Some cat.
Proof.
  intros Hl Hi.
  split; [repeat split; discriminate |].
  assert (Hfresh : List.length h <> SchemeMapper._schemes self).
  { intros E. assert (SchemeMapper._schemes self < List.length h)%nat
      by (apply nth_error_Some; congruence). lia. }
  assert (Hgen : forall found,
            incl found items ->
            SchemeMapper.view (h ++ [Store.ObjList found]) (SchemeMapper._schemes self)
            = Some cat
            /\ incl found items
            /\ forall x : Store.ref,
                 exists h'',
                   Store.list_append (List.length h) x (h ++ [Store.ObjList found])
                   = Some (tt, h'')
                   /\ SchemeMapper.view h'' (SchemeMapper._schemes self) = Some cat).
  { intros found Hincl.
    split; [exact (view_catalog_extend h self items cat Hl Hi _) |].
    split; [exact Hincl |].
    intros x. eexists. split; [apply list_append_last |].
    exact (view_catalog_extend h self items cat Hl Hi _). }
  destruct op as [| query | [p |]]; simpl run.
  - exists items. split; [exact (all_schemes_value h self items Hl) |].
    split; [exact Hfresh |]. apply Hgen, incl_refl.
  - eexists. split; [exact (search_value h self items cat Hl Hi lower query) |].
    split; [exact Hfresh |]. apply Hgen, chosen_incl.
  - eexists. split; [exact (find_eligible_some_value h self items cat Hl Hi p) |].
    split; [exact Hfresh |]. apply Hgen, chosen_incl.
  - exists items. split; [exact (find_eligible_none_value h self items Hl) |].
    split; [exact Hfresh |]. apply Hgen, incl_refl.
Qed.

Lemma catalog_spec_witness :
  exists found : list Store.ref,
    run (fun s => s) (fst constructed) (SearchFor "MGNREGA") (snd constructed)
    = Some (List.length (snd constructed), snd constructed ++ [Store.ObjList found])
    /\ incl found (seq 0 15).
Proof.
  destruct (catalog_spec (fun s => s) (snd constructed) (fst constructed) (seq 0 15)
              SchemeMapper.scheme_literals (SearchFor "MGNREGA") eq_refl eq_refl)
    as (_ & found & E & _ & _ & I & _).
  exists found. split; [exact E | exact I].
Defined.

(* ================================================================= *)
(** * Part III: further properties of the code *)
(* ================================================================= *)

(** ** Dictionaries, continued *)

Lemma dict_get_set_other {V : Type} (d : PyDict.t V) (k k' : string) (v : V) :
  k <> k' -> PyDict.get (PyDict.set d k v) k' = PyDict.get d k'.
Proof.
  intros Hne. induction d as [| [k0 v0] d IH]; simpl.
  - apply String.eqb_neq in Hne. now rewrite Hne.
  - destruct (k0 =? k)%string eqn:E; simpl.
    + apply String.eqb_eq in E. subst k0.
      apply String.eqb_neq in Hne. now rewrite Hne.
    + now rewrite IH.
Qed.

Lemma dict_set_absent {V : Type} (d : PyDict.t V) (k : string) (v : V) :
  PyDict.get d k = None -> PyDict.set d k v = d ++ [(k, v)].
Proof.
  induction d as [| [k0 v0] d IH]; simpl; intros H; [reflexivity |].
  destruct (k0 =? k)%string; [discriminate |]. now rewrite IH.
Qed.

Lemma dict_set_present {V : Type} (d : PyDict.t V) (k : string) (v old : V) :
  PyDict.get d k = Some old ->
  exists d1 d2,
    d = d1 ++ (k, old) :: d2
    /\ PyDict.set d k v = d1 ++ (k, v) :: d2
    /\ PyDict.get d1 k = None.
Proof.
  induction d as [| [k0 v0] d IH]; simpl; intros H; [discriminate |].
  destruct (k0 =? k)%string eqn:E.
  - apply String.eqb_eq in E. subst k0. injection H as <-.
    exists [], d. repeat split.
  - destruct (IH H) as (d1 & d2 & -> & -> & N).
    exists ((k0, v0) :: d1), d2. repeat split. simpl. now rewrite E.
Qed.

Lemma dict_set_set {V : Type} (d : PyDict.t V) (k : string) (v v' : V) :
  PyDict.set (PyDict.set d k v) k v' = PyDict.set d k v'.
Proof.
  induction d as [| [k0 v0] d IH]; simpl.
  - now rewrite String.eqb_refl.
  - destruct (k0 =? k)%string eqn:E; simpl; rewrite E; [reflexivity | now rewrite IH].
Qed.

Lemma dict_get_in_values {V : Type} (d : PyDict.t V) (k : string) (v : V) :
  PyDict.get d k = Some v -> In v (PyDict.values d).
Proof.
  intros H. destruct (dict_set_present d k v v H) as (d1 & d2 & -> & _).
  unfold PyDict.values. rewrite map_app. apply in_or_app. right. now left.
Qed.

(** ** PanchayatRegistry, continued *)

(** X1: [register] leaves the lookup of every other identifier as it was. *)
Theorem register_keeps_other_units (self : PanchayatRegistry.t)
    (panchayat : GramPanchayat.t) (panchayat_id : string) :
  GramPanchayat.panchayat_id panchayat <> panchayat_id ->
  PanchayatRegistry.get (PanchayatRegistry.register self panchayat) panchayat_id
  = PanchayatRegistry.get self panchayat_id.
Proof.
  intros H. unfold PanchayatRegistry.get, PanchayatRegistry.register. simpl.
  now apply dict_get_set_other.
Qed.

Lemma register_keeps_other_units_witness :
  let first := example_panchayat "GP001" "Rampur" 2000 (PyFloat.Z2F 10) in
  let second := example_panchayat "GP002" "Shyampur" 2500 (PyFloat.Z2F 12) in
  let self := PanchayatRegistry.register PanchayatRegistry.__init__ first in
  PanchayatRegistry.get (PanchayatRegistry.register self second) "GP001" = Some first.
Proof.
  cbv zeta.
  rewrite (register_keeps_other_units _ _ "GP001"); [reflexivity | discriminate].
Defined.

(** X2: after a sequence of registrations, [get] returns the unit that was
    registered last under the identifier (last write wins), and what the
    registry held before when the sequence has no unit of that identifier. *)
Theorem register_all_last_wins (self : PanchayatRegistry.t) (units : list GramPanchayat.t)
    (panchayat_id : string) :
  PanchayatRegistry.get (register_all self units) panchayat_id
  = match find (fun p => (GramPanchayat.panchayat_id p =? panchayat_id)%string) (rev units) with
    | Some p => Some p
    | None => PanchayatRegistry.get self panchayat_id
    end.
Proof.
  unfold register_all.
  induction units as [| p units IH] using rev_ind; [reflexivity |].
  rewrite fold_left_app, rev_app_distr. simpl.
  destruct (GramPanchayat.panchayat_id p =? panchayat_id)%string eqn:E.
  - apply String.eqb_eq in E. subst panchayat_id.
    unfold PanchayatRegistry.get, PanchayatRegistry.register. simpl.
    apply dict_get_set_same.
  - apply String.eqb_neq in E.
    unfold PanchayatRegistry.get, PanchayatRegistry.register in *. simpl.
    rewrite dict_get_set_other by exact E. exact IH.
Qed.

(** X3: registration order.  A unit with a new identifier goes to the end of
    [all_panchayats]; a unit whose identifier is registered takes the place
    of the old record, and the rest of the list is unchanged. *)
Theorem register_order (self : PanchayatRegistry.t) (panchayat : GramPanchayat.t) :
  match PanchayatRegistry.get self (GramPanchayat.panchayat_id panchayat) with
  | None =>
      PanchayatRegistry.all_panchayats (PanchayatRegistry.register self panchayat)
      = PanchayatRegistry.all_panchayats self ++ [panchayat]
  | Some old =>
      exists before after,
        PanchayatRegistry.all_panchayats self = before ++ old :: after
        /\ PanchayatRegistry.all_panchayats (PanchayatRegistry.register self panchayat)
           = before ++ panchayat :: after
  end.
Proof.
  unfold PanchayatRegistry.get, PanchayatRegistry.all_panchayats,
    PanchayatRegistry.register, PyDict.values. simpl.
  destruct (PyDict.get (PanchayatRegistry._panchayats self)
              (GramPanchayat.panchayat_id panchayat)) as [old |] eqn:G.
  - destruct (dict_set_present _ _ panchayat _ G) as (d1 & d2 & E1 & E2 & _).
    exists (map snd d1), (map snd d2).
    rewrite E2, E1, !map_app. split; reflexivity.
  - rewrite (dict_set_absent _ _ _ G), map_app. reflexivity.
Qed.

(** ** Substrings *)

Lemma prefix_spec (q s : string) :
  String.prefix q s = true <-> exists post, s = (q ++ post)%string.
Proof.
  revert s. induction q as [| a q IH]; intros s.
  - split; [intros _; now exists s | intros _; now destruct s].
  - destruct s as [| b s]; simpl.
    + split; [discriminate | intros [post H]; discriminate].
    + destruct (ascii_dec a b) as [-> | Hne].
      * rewrite IH. split; intros [post H]; exists post; congruence.
      * split; [discriminate | intros [post H]; congruence].
Qed.

Lemma py_in_unfold (q s : string) :
  py_in q s
  = if String.prefix q s then true
    else match s with
         | EmptyString => false
         | String _ s' => py_in q s'
         end.
Proof. now destruct s. Qed.

(** [py_in q s] holds exactly when [q] is a contiguous part of [s]. *)
Lemma py_in_spec (q s : string) :
  py_in q s = true <-> exists pre post, s = (pre ++ q ++ post)%string.
Proof.
  split.
  - induction s as [| c s IH]; rewrite py_in_unfold;
      destruct (String.prefix q _) eqn:P; intros H.
    + apply prefix_spec in P as [post P]. now exists "", post.
    + discriminate.
    + apply prefix_spec in P as [post P]. now exists "", post.
    + destruct (IH H) as (pre & post & ->). now exists (String c pre), post.
  - intros (pre & post & ->).
    induction pre as [| c pre IH]; rewrite py_in_unfold.
    + replace (String.prefix q ("" ++ q ++ post)) with true; [reflexivity |].
      symmetry. apply prefix_spec. now exists post.
    + destruct (String.prefix q _); [reflexivity | exact IH].
Qed.

Lemma py_in_empty (s : string) : py_in "" s = true.
Proof. apply py_in_spec. now exists "", s. Qed.

Lemma filter_true {A : Type} (l : list A) : filter (fun _ => true) l = l.
Proof. induction l; simpl; congruence. Qed.

(** X4: [search_by_district] and [search_by_state] return, in registration
    order, the units whose lower-cased district (state) has the lower-cased
    query as a contiguous substring; when lower-casing maps the empty string
    to itself, the empty query returns every unit. *)
Theorem registry_search_spec (lower : string -> string) (self : PanchayatRegistry.t)
    (query : string) :
  (forall p,
     In p (PanchayatRegistry.search_by_district lower self query) <->
     In p (PanchayatRegistry.all_panchayats self)
     /\ exists pre post,
          lower (GramPanchayat.district p) = (pre ++ lower query ++ post)%string)
  /\ (forall p,
        In p (PanchayatRegistry.search_by_state lower self query) <->
        In p (PanchayatRegistry.all_panchayats self)
        /\ exists pre post,
             lower (GramPanchayat.state p) = (pre ++ lower query ++ post)%string)
  /\ (lower "" = "" ->
      PanchayatRegistry.search_by_district lower self ""
      = PanchayatRegistry.all_panchayats self
      /\ PanchayatRegistry.search_by_state lower self ""
         = PanchayatRegistry.all_panchayats self).
Proof.
  unfold PanchayatRegistry.search_by_district, PanchayatRegistry.search_by_state,
    PanchayatRegistry.all_panchayats.
  split; [| split].
  - intros p. rewrite filter_In. cbv beta zeta. now rewrite py_in_spec.
  - intros p. rewrite filter_In. cbv beta zeta. now rewrite py_in_spec.
  - intros ->. split.
    + rewrite <- (filter_true (PyDict.values _)) at 2.
      apply filter_ext. intros p. apply py_in_empty.
    + rewrite <- (filter_true (PyDict.values _)) at 2.
      apply filter_ext. intros p. apply py_in_empty.
Qed.

Lemma registry_search_spec_witness :
  let self :=
    register_all PanchayatRegistry.__init__
      [GramPanchayat.mk "GP001" "Rampur" "Block A" "Pune" "Maharashtra" 2000 400 (PyFloat.Z2F 10);
       GramPanchayat.mk "GP002" "Shyampur" "Block B" "Jodhpur" "Rajasthan" 2500 500 (PyFloat.Z2F 12)] in
  PanchayatRegistry.search_by_district ascii_lower self ""
  = PanchayatRegistry.all_panchayats self
  /\ map GramPanchayat.panchayat_id (PanchayatRegistry.search_by_district ascii_lower self "PUNE")
     = ["GP001"].
Proof.
  cbv zeta. split; [| reflexivity].
  match goal with
  | |- PanchayatRegistry.search_by_district _ ?self _ = _ =>
      destruct (registry_search_spec ascii_lower self "") as (_ & _ & H)
  end.
  apply H. reflexivity.
Defined.

(** ** ServiceTracker, continued *)

Lemma category_value_inj (c c' : ServiceCategory) :
  category_value c = category_value c' -> c = c'.
Proof. destruct c, c'; intros H; (reflexivity || discriminate H). Qed.

Lemma category_stats_fold (panchayat_id : string) (c : ServiceCategory)
    (l : list ServiceRequest.t) (stats : PyDict.t Z) :
  let n :=
    Z.of_nat (List.length
                (filter (fun r => (ServiceRequest.panchayat_id r =? panchayat_id)%string
                                  && category_eqb (ServiceRequest.category r) c) l)) in
  PyDict.get
    (fold_left
       (fun stats r =>
          if (ServiceRequest.panchayat_id r =? panchayat_id)%string then
            let cat := category_value (ServiceRequest.category r) in
            PyDict.set stats cat (ServiceTracker.get_default stats cat 0 + 1)
          else stats)
       l stats)
    (category_value c)
  = if n =? 0 then PyDict.get stats (category_value c)
    else Some (ServiceTracker.get_default stats (category_value c) 0 + n).
Proof.
  cbv zeta. revert stats. induction l as [| r l IH]; intros stats; [reflexivity |].
  simpl fold_left. simpl filter.
  destruct (ServiceRequest.panchayat_id r =? panchayat_id)%string; simpl andb;
    [| apply IH].
  rewrite IH. clear IH. unfold category_eqb.
  set (n := Z.of_nat (List.length (filter _ l))).
  assert (Hn : 0 <= n) by (unfold n; lia).
  destruct (category_value (ServiceRequest.category r) =? category_value c)%string eqn:E.
  - apply String.eqb_eq in E. rewrite E.
    unfold ServiceTracker.get_default. rewrite !dict_get_set_same.
    simpl List.length. rewrite Nat2Z.inj_succ. fold n.
    replace (Z.succ n =? 0) with false by (symmetry; apply Z.eqb_neq; lia).
    destruct (n =? 0) eqn:N; [apply Z.eqb_eq in N; rewrite N |]; f_equal; lia.
  - apply String.eqb_neq in E.
    unfold ServiceTracker.get_default.
    rewrite !dict_get_set_other by exact E. reflexivity.
Qed.

(** X5: for every category, [category_stats] holds under the category's
    label the number of the unit's requests of that category, whatever
    their status, and has no entry for the label when there is none. *)
Theorem category_stats_spec (self : ServiceTracker.t) (panchayat_id : string)
    (c : ServiceCategory) :
  let n :=
    Z.of_nat (List.length
                (filter (fun r => (ServiceRequest.panchayat_id r =? panchayat_id)%string
                                  && category_eqb (ServiceRequest.category r) c)
                        (PyDict.values (ServiceTracker._requests self)))) in
  PyDict.get (ServiceTracker.category_stats self panchayat_id) (category_value c)
  = if n =? 0 then None else Some n.
Proof.
  cbv zeta. unfold ServiceTracker.category_stats.
  rewrite (category_stats_fold panchayat_id c). reflexivity.
Qed.

(** Sorting and filtering commute. *)
Lemma insert_by_head {A : Type} (key : A -> Z) (x : A) (l : list A) :
  Forall (fun y => key x <= key y) l -> insert_by key x l = x :: l.
Proof.
  intros F. destruct l as [| y l]; [reflexivity |].
  simpl. inversion F as [| ? ? Hy _]; subst.
  apply Z.leb_le in Hy. now rewrite Hy.
Qed.

Lemma insert_by_filter {A : Type} (key : A -> Z) (f : A -> bool) (x : A) (l : list A) :
  StronglySorted (le_by key) l ->
  filter f (insert_by key x l)
  = if f x then insert_by key x (filter f l) else filter f l.
Proof.
  induction l as [| y l IH]; intros S.
  - simpl. now destruct (f x).
  - inversion S as [| ? ? S' F]; subst.
    change (insert_by key x (y :: l))
      with (if key x <=? key y then x :: y :: l else y :: insert_by key x l).
    destruct (key x <=? key y) eqn:E.
    + apply Z.leb_le in E.
      assert (HF : Forall (fun z => key x <= key z) (filter f (y :: l))).
      { apply Forall_forall. intros z Hz. apply filter_In in Hz as [Hz _].
        destruct Hz as [<- | Hz]; [exact E |].
        rewrite Forall_forall in F. specialize (F z Hz). unfold le_by in F. lia. }
      rewrite (insert_by_head key x _ HF).
      change (filter f (x :: y :: l))
        with (if f x then x :: filter f (y :: l) else filter f (y :: l)).
      reflexivity.
    + simpl filter. rewrite (IH S'). clear IH.
      destruct (f y), (f x); try reflexivity.
      simpl. now rewrite E.
Qed.

Lemma sorted_filter {A : Type} (key : A -> Z) (f : A -> bool) (l : list A) :
  filter f (sorted key l) = sorted key (filter f l).
Proof.
  induction l as [| x l IH]; [reflexivity |].
  simpl sorted at 1. rewrite insert_by_filter by apply sorted_sorted.
  simpl filter. destruct (f x); simpl; now rewrite IH.
Qed.

(** X6: the pending requests of one unit are the pending requests of all
    units, in the same order, with the other units' requests left out. *)
Theorem get_pending_of_unit (self : ServiceTracker.t) (panchayat_id : string) :
  panchayat_id <> "" ->
  ServiceTracker.get_pending self (Some panchayat_id)
  = filter (fun r => (ServiceRequest.panchayat_id r =? panchayat_id)%string)
           (ServiceTracker.get_pending self None).
Proof.
  intros Hne. apply String.eqb_neq in Hne.
  unfold ServiceTracker.get_pending, truthy. rewrite Hne. simpl negb. cbv iota.
  now rewrite sorted_filter.
Qed.

Lemma get_pending_of_unit_witness :
  let self :=
    ServiceTracker.create
      (ServiceTracker.create
         (ServiceTracker.create ServiceTracker.__init__
            (example_request "REQ001" "GP001" "pending" 3))
         (example_request "REQ002" "GP002" "pending" 1))
      (example_request "REQ003" "GP001" "pending" 2) in
  map ServiceRequest.request_id (ServiceTracker.get_pending self None)
  = ["REQ002"; "REQ003"; "REQ001"]
  /\ map ServiceRequest.request_id (ServiceTracker.get_pending self (Some "GP001"))
     = ["REQ003"; "REQ001"].
Proof.
  cbv zeta. split; [reflexivity |].
  rewrite get_pending_of_unit by discriminate. reflexivity.
Defined.

Lemma dict_set_keys {V : Type} (d : PyDict.t V) (k : string) (v old : V) :
  PyDict.get d k = Some old -> map fst (PyDict.set d k v) = map fst d.
Proof.
  intros H. destruct (dict_set_present d k v old H) as (d1 & d2 & -> & -> & _).
  now rewrite !map_app.
Qed.

(** X7: [update_status] never adds, removes or reorders requests, and doing
    the same update twice is the same as doing it once. *)
Theorem update_status_idempotent (self : ServiceTracker.t) (request_id status : string)
    (resolved_date : option string) :
  let once := ServiceTracker.update_status self request_id status resolved_date in
  map fst (ServiceTracker._requests (snd once)) = map fst (ServiceTracker._requests self)
  /\ ServiceTracker.update_status (snd once) request_id status resolved_date = once.
Proof.
  cbv zeta. unfold ServiceTracker.update_status.
  destruct (PyDict.get (ServiceTracker._requests self) request_id) as [old |] eqn:G.
  - split; [simpl; eapply dict_set_keys; eassumption |].
    simpl. rewrite dict_get_set_same, dict_set_set.
    destruct (truthy resolved_date); reflexivity.
  - split; [reflexivity |]. simpl. now rewrite G.
Qed.

(** X8: a request that was just created is known to [update_status], and
    when its status is the string [pending] it is in the pending list. *)
Theorem create_then_use (self : ServiceTracker.t) (request : ServiceRequest.t) :
  (forall status resolved_date,
     fst (ServiceTracker.update_status (ServiceTracker.create self request)
            (ServiceRequest.request_id request) status resolved_date) = true)
  /\ (ServiceRequest.status request = "pending" ->
      In request (ServiceTracker.get_pending (ServiceTracker.create self request) None)).
Proof.
  split.
  - intros status resolved_date.
    unfold ServiceTracker.update_status, ServiceTracker.create. simpl.
    now rewrite dict_get_set_same.
  - intros H. rewrite get_pending_unfold.
    apply (Permutation_in _ (Permutation_sym (sorted_perm _ _))).
    apply filter_In. split.
    + unfold ServiceTracker.create. simpl.
      eapply dict_get_in_values, dict_get_set_same.
    + unfold selected. rewrite H. reflexivity.
Qed.

Lemma create_then_use_witness :
  let request := example_request "REQ001" "GP001" "pending" 2 in
  In request (ServiceTracker.get_pending
                (ServiceTracker.create ServiceTracker.__init__ request) None).
Proof.
  cbv zeta. apply create_then_use. reflexivity.
Defined.

Lemma count_after_set {V : Type} (f : V -> bool) (d : PyDict.t V) (k : string) (v old : V) :
  PyDict.get d k = Some old ->
  Z.of_nat (List.length (filter f (PyDict.values (PyDict.set d k v))))
  = Z.of_nat (List.length (filter f (PyDict.values d)))
    - (if f old then 1 else 0) + (if f v then 1 else 0).
Proof.
  intros H. destruct (dict_set_present d k v old H) as (d1 & d2 & -> & -> & _).
  unfold PyDict.values. rewrite !map_app, !filter_app, !length_app. simpl.
  destruct (f old), (f v); simpl List.length; lia.
Qed.

(** X9: an update of a known request changes the number of pending requests
    by what the request itself contributes: one less when it was pending,
    one more when the new status is the string [pending]. *)
Theorem update_status_pending_count (self : ServiceTracker.t) (request_id status : string)
    (resolved_date : option string) (old : ServiceRequest.t) :
  PyDict.get (ServiceTracker._requests self) request_id = Some old ->
  let self' := snd (ServiceTracker.update_status self request_id status resolved_date) in
  Z.of_nat (List.length (ServiceTracker.get_pending self' None))
  = Z.of_nat (List.length (ServiceTracker.get_pending self None))
    - (if (ServiceRequest.status old =? "pending")%string then 1 else 0)
    + (if (status =? "pending")%string then 1 else 0).
Proof.
  intros G. cbv zeta. unfold ServiceTracker.update_status. rewrite G.
  rewrite !get_pending_unfold.
  rewrite !(Permutation_length (sorted_perm _ _)).
  simpl snd. simpl ServiceTracker._requests.
  rewrite (count_after_set (selected None) _ _ _ old G).
  unfold selected at 2 3. rewrite !andb_true_r.
  destruct (truthy resolved_date); reflexivity.
Qed.

Lemma update_status_pending_count_witness :
  let self :=
    ServiceTracker.create
      (ServiceTracker.create ServiceTracker.__init__
         (example_request "REQ001" "GP001" "pending" 3))
      (example_request "REQ002" "GP002" "pending" 1) in
  let self' := snd (ServiceTracker.update_status self "REQ001" "resolved" (Some "2025-02-01")) in
  Z.of_nat (List.length (ServiceTracker.get_pending self' None))
  = Z.of_nat (List.length (ServiceTracker.get_pending self None)) - 1 + 0.
Proof.
  cbv zeta.
  exact (update_status_pending_count
           (ServiceTracker.create
              (ServiceTracker.create ServiceTracker.__init__
                 (example_request "REQ001" "GP001" "pending" 3))
              (example_request "REQ002" "GP002" "pending" 1))
           "REQ001" "resolved" (Some "2025-02-01")
           (example_request "REQ001" "GP001" "pending" 3) eq_refl).
Defined.

(** ** BudgetAnalyzer, continued *)

(** The order of floats is strict: nothing is below [lo] and above [hi]
    when [lo <= hi]. *)
Lemma float_order_strict (x lo hi : PyFloat.float) :
  PyFloat.fltb x lo = true -> PyFloat.fleb lo hi = true -> PyFloat.fltb hi x = true ->
  False.
Proof.
  unfold PyFloat.fltb, PyFloat.fleb, PyFloat.fcompare.
  destruct x as [| sx | sx mx], lo as [| sl | sl ml], hi as [| sh | sh mh];
    try discriminate;
    try (destruct sx; discriminate);
    try (destruct sl; discriminate);
    try (destruct sh; discriminate);
    try (destruct sx, sl; discriminate);
    try (destruct sl, sh; discriminate);
    try (destruct sx, sh; discriminate);
    try (destruct sx, sl, sh; discriminate).
  destruct (Z.compare_spec (PyFloat.signed sx mx) (PyFloat.signed sl ml));
    try discriminate;
    destruct (Z.compare_spec (PyFloat.signed sl ml) (PyFloat.signed sh mh));
    try discriminate;
    destruct (Z.compare_spec (PyFloat.signed sh mh) (PyFloat.signed sx mx));
    try discriminate; lia.
Qed.

Lemma over_utilized_value (self : BudgetAnalyzer.t) (panchayat_id year : string)
    (threshold : PyFloat.float) :
  BudgetAnalyzer.over_utilized self panchayat_id year threshold
  = Ok (filter (fun a => matching panchayat_id year a
                         && PyFloat.fltb threshold (pct_value a))
               (BudgetAnalyzer._allocations self)).
Proof.
  apply filter_result_total. intros a. unfold matching.
  destruct (_ && _); [| reflexivity].
  now rewrite utilization_pct_value.
Qed.

(** X10: with thresholds [low <= high] (the defaults are 50.0 and 90.0),
    [under_utilized] and [over_utilized] never raise, and no record is in
    both results. *)
Theorem under_over_disjoint (self : BudgetAnalyzer.t) (panchayat_id year : string)
    (low high : PyFloat.float) :
  PyFloat.fleb low high = true ->
  exists under over,
    BudgetAnalyzer.under_utilized self panchayat_id year low = Ok under
    /\ BudgetAnalyzer.over_utilized self panchayat_id year high = Ok over
    /\ forall a, In a under -> In a over -> False.
Proof.
  intros Hle. eexists _, _.
  split; [apply under_utilized_value |].
  split; [apply over_utilized_value |].
  intros a Hu Ho.
  apply filter_In in Hu as [_ Hu]. apply filter_In in Ho as [_ Ho].
  apply andb_true_iff in Hu as [_ Hu]. apply andb_true_iff in Ho as [_ Ho].
  exact (float_order_strict _ _ _ Hu Hle Ho).
Qed.

Lemma under_over_disjoint_witness :
  exists under over,
    BudgetAnalyzer.under_utilized scenario "GP001" "2024-25" BudgetAnalyzer.default_threshold
    = Ok under
    /\ BudgetAnalyzer.over_utilized scenario "GP001" "2024-25"
         BudgetAnalyzer.default_over_threshold = Ok over
    /\ forall a, In a under -> In a over -> False.
Proof.
  apply under_over_disjoint. vm_compute. reflexivity.
Defined.

Lemma for_result_total {A S : Type} (body : S -> A -> result S) (g : S -> A -> S)
    (l : list A) (s : S) :
  (forall s x, body s x = Ok (g s x)) -> for_result l body s = Ok (fold_left g l s).
Proof.
  intros H. revert s. induction l as [| x l IH]; intros s; simpl; [reflexivity |].
  rewrite H. simpl. apply IH.
Qed.

(** X11: [utilization_by_scheme] never raises, and under a scheme name it
    holds the percentage of the last record of the unit and year with that
    name (a later record overwrites an earlier one); a name with no such
    record has no entry. *)
Theorem utilization_by_scheme_last_wins (self : BudgetAnalyzer.t)
    (panchayat_id year : string) :
  exists result,
    BudgetAnalyzer.utilization_by_scheme self panchayat_id year = Ok result
    /\ forall scheme_name,
         PyDict.get result scheme_name
         = option_map pct_value
             (find (fun a => matching panchayat_id year a
                             && (BudgetAllocation.scheme_name a =? scheme_name)%string)
                   (rev (BudgetAnalyzer._allocations self))).
Proof.
  unfold BudgetAnalyzer.utilization_by_scheme.
  set (step := fun (d : PyDict.t PyFloat.float) a =>
                 if matching panchayat_id year a
                 then PyDict.set d (BudgetAllocation.scheme_name a) (pct_value a)
                 else d).
  eexists. split.
  - apply (for_result_total _ step). intros d a. unfold step, matching.
    destruct (_ && _); [| reflexivity].
    now rewrite utilization_pct_value.
  - intros scheme_name.
    induction (BudgetAnalyzer._allocations self) as [| a l IH] using rev_ind;
      [reflexivity |].
    rewrite fold_left_app, rev_app_distr. simpl. unfold step at 1.
    destruct (matching panchayat_id year a); simpl andb; [| exact IH].
    destruct (BudgetAllocation.scheme_name a =? scheme_name)%string eqn:E.
    + apply String.eqb_eq in E. subst scheme_name. apply dict_get_set_same.
    + apply String.eqb_neq in E. rewrite dict_get_set_other by exact E. exact IH.
Qed.

(** X13: [add] appends.  The recommendations after [add] are those before,
    followed by the line of the new record when it belongs to the unit and
    year and is under-utilized; a record of another unit or year adds
    nothing. *)
Theorem recommend_after_add (self : BudgetAnalyzer.t) (allocation : BudgetAllocation.t)
    (panchayat_id year : string) :
  exists lines,
    BudgetAnalyzer.recommend_reallocation self panchayat_id year = Ok lines
    /\ BudgetAnalyzer.recommend_reallocation (BudgetAnalyzer.add self allocation)
         panchayat_id year
       = Ok (lines
             ++ if matching panchayat_id year allocation
                   && PyFloat.fltb (pct_value allocation) (PyFloat.Z2F 50)
                then [recommendation_for allocation] else []).
Proof.
  eexists. split; [apply recommend_reallocation_value |].
  rewrite recommend_reallocation_value. unfold BudgetAnalyzer.add. simpl.
  rewrite filter_app, map_app. simpl.
  now destruct (_ && _).
Qed.

Lemma representable_zero : representable 0 = true.
Proof. reflexivity. Qed.

(** Rounding keeps zero and keeps what is at most [B] at most [B]. *)
Lemma nearest_le_zero (neg : bool) (a b B : Z) :
  0 <= a -> 0 < b -> representable B = true -> a <= B * b ->
  exists u, PyFloat.nearest neg a b = PyFloat.Fin neg u /\ 0 <= u <= B /\ (a = 0 -> u = 0).
Proof.
  intros Ha Hb HB Hle.
  destruct (nearest_le neg a b B Ha Hb HB Hle) as (u & E & Hu).
  exists u. split; [exact E |]. split; [exact Hu |].
  intros ->.
  destruct (nearest_le neg 0 b 0 ltac:(lia) Hb representable_zero ltac:(lia))
    as (u0 & E0 & Hu0).
  rewrite E in E0. injection E0 as ->. lia.
Qed.

Lemma pct_bounds (s : bool) (mu ma : Z) :
  0 <= mu <= ma -> 0 < ma ->
  exists u,
    PyFloat.round_1
      (PyFloat.fmul (PyFloat.fdiv (PyFloat.Fin s mu) (PyFloat.Fin false ma)) (PyFloat.Z2F 100))
    = PyFloat.Fin s u
    /\ 0 <= u <= 100 * PyFloat.scale
    /\ (mu = 0 -> u = 0).
Proof.
  intros Hu Ha. pose proof scale_pos as Hs.
  unfold PyFloat.fdiv.
  replace (ma =? 0) with false by (symmetry; apply Z.eqb_neq; lia).
  rewrite xorb_false_r.
  destruct (nearest_le_zero s (mu * PyFloat.scale) ma PyFloat.scale)
    as (u1 & -> & H1 & Z1); [nia | lia | apply representable_one | nia |].
  unfold PyFloat.fmul. rewrite Z2F_100, xorb_false_r.
  destruct (nearest_le_zero s (u1 * (100 * PyFloat.scale)) PyFloat.scale
              (100 * PyFloat.scale))
    as (u2 & -> & H2 & Z2); [nia | lia | apply representable_hundred | nia |].
  unfold PyFloat.round_1.
  assert (H10 : PyFloat.round_half_even (10 * u2) PyFloat.scale <= 1000)
    by (apply round_half_even_le_int; lia).
  assert (H10' : 0 <= PyFloat.round_half_even (10 * u2) PyFloat.scale)
    by (apply round_half_even_nonneg; lia).
  destruct (nearest_le_zero s
              (PyFloat.round_half_even (10 * u2) PyFloat.scale * PyFloat.scale) 10
              (100 * PyFloat.scale))
    as (u3 & -> & H3 & Z3); [nia | lia | apply representable_hundred | nia |].
  exists u3. split; [reflexivity |]. split; [exact H3 |].
  intros M. apply Z3.
  assert (U1 : u1 = 0) by (apply Z1; lia).
  assert (U2 : u2 = 0) by (apply Z2; nia).
  subst u2. replace (10 * 0) with (0 * PyFloat.scale) by lia.
  rewrite round_half_even_exact by lia. lia.
Qed.

(** X12: when the allocated amount is finite and the utilized amount lies
    between zero and the allocated amount, [utilization_pct] lies between
    0.0 and 100.0. *)
Theorem utilization_pct_range (a : BudgetAllocation.t) :
  finite_nonneg (BudgetAllocation.utilized_amount a) = true ->
  finite_nonneg (BudgetAllocation.allocated_amount a) = true ->
  PyFloat.fleb (BudgetAllocation.utilized_amount a) (BudgetAllocation.allocated_amount a)
  = true ->
  exists v,
    BudgetAllocation.utilization_pct a = Ok v
    /\ PyFloat.fleb (PyFloat.Z2F 0) v = true
    /\ PyFloat.fleb v (PyFloat.Z2F 100) = true.
Proof.
  intros Hu Ha Hle. rewrite utilization_pct_value. unfold pct_value.
  eexists. split; [reflexivity |].
  destruct (BudgetAllocation.utilized_amount a) as [| ? | su mu]; try discriminate.
  destruct (BudgetAllocation.allocated_amount a) as [| ? | sa ma]; try discriminate.
  simpl in Hu, Ha.
  apply andb_true_iff in Hu as [Hu0 Hus]. apply andb_true_iff in Ha as [Ha0 Has].
  apply Z.leb_le in Hu0, Ha0.
  assert (Hsu : su = false \/ mu = 0)
    by (apply orb_true_iff in Hus as [H | H];
        [left; now destruct su | right; now apply Z.eqb_eq]).
  assert (Hsa : sa = false \/ ma = 0)
    by (apply orb_true_iff in Has as [H | H];
        [left; now destruct sa | right; now apply Z.eqb_eq]).
  assert (Hm : mu <= ma).
  { unfold PyFloat.fleb, PyFloat.fcompare, PyFloat.signed in Hle.
    destruct Hsu as [-> | ->], Hsa as [-> | ->];
      try destruct su; try destruct sa;
      match type of Hle with
      | context [?x ?= ?y] => destruct (Z.compare_spec x y); try discriminate; lia
      end. }
  destruct (Z.eq_dec ma 0) as [-> | Hma].
  - replace (PyFloat.feqb (PyFloat.Fin sa 0) (PyFloat.Z2F 0)) with true
      by (now destruct sa).
    split; vm_compute; reflexivity.
  - assert (sa = false) as -> by (destruct Hsa; [assumption | contradiction]).
    replace (PyFloat.feqb (PyFloat.Fin false ma) (PyFloat.Z2F 0)) with false.
    2:{ rewrite Z2F_0. unfold PyFloat.feqb, PyFloat.fcompare, PyFloat.signed.
        destruct (Z.compare_spec ma 0); (reflexivity || lia). }
    destruct (pct_bounds su mu ma) as (u & -> & Hb & Hz); [lia | lia |].
    rewrite Z2F_0, Z2F_100. unfold PyFloat.fleb, PyFloat.fcompare, PyFloat.signed.
    destruct Hsu as [-> | ->].
    + split.
      * destruct (Z.compare_spec 0 u); (reflexivity || lia).
      * destruct (Z.compare_spec u (100 * PyFloat.scale)); (reflexivity || lia).
    + rewrite (Hz eq_refl).
      replace (if su then - 0 else 0) with 0 by (now destruct su).
      pose proof scale_pos.
      split; [reflexivity |].
      destruct (Z.compare_spec 0 (100 * PyFloat.scale)); (reflexivity || lia).
Qed.

Lemma utilization_pct_range_witness :
  exists v,
    BudgetAllocation.utilization_pct (example_allocation "PMAY-Gramin" 300000 90000) = Ok v
    /\ PyFloat.fleb (PyFloat.Z2F 0) v = true
    /\ PyFloat.fleb v (PyFloat.Z2F 100) = true.
Proof.
  apply utilization_pct_range; vm_compute; reflexivity.
Defined.

(** ** MeetingManager *)

Lemma all_action_items_fold (panchayat_id : string) (l : list MeetingRecord.t)
    (items : list string) :
  fold_left
    (fun items m =>
       if (MeetingRecord.panchayat_id m =? panchayat_id)%string
       then items ++ MeetingRecord.action_items m
       else items)
    l items
  = items
    ++ List.concat (map MeetingRecord.action_items
                 (filter (fun m => (MeetingRecord.panchayat_id m =? panchayat_id)%string) l)).
Proof.
  revert items. induction l as [| m l IH]; intros items; simpl.
  - now rewrite app_nil_r.
  - rewrite IH. destruct (MeetingRecord.panchayat_id m =? panchayat_id)%string; simpl;
      [now rewrite app_assoc | reflexivity].
Qed.

(** X14: the three queries of the meeting log agree: [meeting_count] is the
    length of [get_meetings], and [all_action_items] is the action items of
    the meetings of [get_meetings], meeting after meeting. *)
Theorem meeting_queries_agree (self : MeetingManager.t) (panchayat_id : string) :
  MeetingManager.meeting_count self panchayat_id
  = Z.of_nat (List.length (MeetingManager.get_meetings self panchayat_id))
  /\ MeetingManager.all_action_items self panchayat_id
     = List.concat (map MeetingRecord.action_items
                 (MeetingManager.get_meetings self panchayat_id)).
Proof.
  split.
  - unfold MeetingManager.meeting_count, MeetingManager.get_meetings.
    apply py_sum_ones.
  - unfold MeetingManager.all_action_items, MeetingManager.get_meetings.
    now rewrite all_action_items_fold.
Qed.

(** X15: [record] appends: the meetings, the count and the action items of
    the meeting's own unit grow at the end by the new meeting, and those of
    every other unit stay as they were. *)
Theorem record_appends (self : MeetingManager.t) (meeting : MeetingRecord.t)
    (panchayat_id : string) :
  let self' := MeetingManager.record self meeting in
  if (MeetingRecord.panchayat_id meeting =? panchayat_id)%string then
    MeetingManager.get_meetings self' panchayat_id
    = MeetingManager.get_meetings self panchayat_id ++ [meeting]
    /\ MeetingManager.meeting_count self' panchayat_id
       = MeetingManager.meeting_count self panchayat_id + 1
    /\ MeetingManager.all_action_items self' panchayat_id
       = MeetingManager.all_action_items self panchayat_id
         ++ MeetingRecord.action_items meeting
  else
    MeetingManager.get_meetings self' panchayat_id
    = MeetingManager.get_meetings self panchayat_id
    /\ MeetingManager.meeting_count self' panchayat_id
       = MeetingManager.meeting_count self panchayat_id
    /\ MeetingManager.all_action_items self' panchayat_id
       = MeetingManager.all_action_items self panchayat_id.
Proof.
  cbv zeta.
  assert (G : MeetingManager.get_meetings (MeetingManager.record self meeting) panchayat_id
              = MeetingManager.get_meetings self panchayat_id
                ++ if (MeetingRecord.panchayat_id meeting =? panchayat_id)%string
                   then [meeting] else []).
  { unfold MeetingManager.get_meetings, MeetingManager.record. simpl.
    rewrite filter_app. simpl. now destruct (_ =? _)%string. }
  assert (C : forall s,
            MeetingManager.meeting_count s panchayat_id
            = Z.of_nat (List.length (MeetingManager.get_meetings s panchayat_id)))
    by (intros s; apply py_sum_ones).
  assert (A : forall s,
            MeetingManager.all_action_items s panchayat_id
            = List.concat (map MeetingRecord.action_items
                             (MeetingManager.get_meetings s panchayat_id))).
  { intros s. unfold MeetingManager.all_action_items, MeetingManager.get_meetings.
    now rewrite all_action_items_fold. }
  rewrite !C, !A, G.
  destruct (MeetingRecord.panchayat_id meeting =? panchayat_id)%string.
  - rewrite length_app, map_app, concat_app. simpl. rewrite app_nil_r.
    repeat split. lia.
  - rewrite app_nil_r. repeat split.
Qed.

(** ** SchemeMapper, continued *)

Lemma eligible_by_tag_mono (tag : string) (n m : Z) :
  n <= m -> eligible_by_tag tag n = true -> eligible_by_tag tag m = true.
Proof.
  intros Hnm H. apply eligible_by_tag_rules in H. apply eligible_by_tag_rules.
  destruct H as [H | [[H1 H2] | [H1 H2]]]; [now left | right; left | right; right];
    split; (assumption || lia).
Qed.

Lemma filter_filter_implies {A : Type} (f g : A -> bool) (l : list A) :
  (forall x, f x = true -> g x = true) -> filter f (filter g l) = filter f l.
Proof.
  intros H. induction l as [| x l IH]; simpl; [reflexivity |].
  destruct (g x) eqn:G; simpl.
  - now rewrite IH.
  - destruct (f x) eqn:F; [| exact IH].
    rewrite (H x F) in G. discriminate.
Qed.

(** X16: eligibility grows with the population: the schemes returned for a
    unit are, in the same order, among those returned for a unit that has at
    least as many inhabitants. *)
Theorem find_eligible_monotone (h : Store.heap) (self : SchemeMapper.t)
    (items : list Store.ref) (cat : list SchemeInfo.t) (small large : GramPanchayat.t) :
  nth_error h (SchemeMapper._schemes self) = Some (Store.ObjList items) ->
  SchemeMapper.deref_all h items = Some cat ->
  GramPanchayat.population small <= GramPanchayat.population large ->
  exists l1 h1 l2 h2 for_large,
    SchemeMapper.find_eligible self (Some small) h = Some (l1, h1)
    /\ SchemeMapper.find_eligible self (Some large) h = Some (l2, h2)
    /\ SchemeMapper.view h2 l2 = Some for_large
    /\ SchemeMapper.view h1 l1
       = Some (filter (fun s => eligible_by_tag (SchemeInfo.eligible_panchayats s)
                                  (GramPanchayat.population small))
                 for_large).
Proof.
  intros Hl Hi Hle. eexists _, _, _, _, _.
  split; [exact (find_eligible_some_value h self items cat Hl Hi small) |].
  split; [exact (find_eligible_some_value h self items cat Hl Hi large) |].
  split; [apply view_last; now apply deref_chosen |].
  rewrite filter_filter_implies
    by (intros s; apply eligible_by_tag_mono; exact Hle).
  apply view_last. now apply deref_chosen.
Qed.

Lemma find_eligible_monotone_witness :
  exists l1 h1 l2 h2 for_large,
    SchemeMapper.find_eligible (fst constructed)
      (Some (example_panchayat "GP001" "Rampur" 200 (PyFloat.Z2F 10))) (snd constructed)
    = Some (l1, h1)
    /\ SchemeMapper.find_eligible (fst constructed)
         (Some (example_panchayat "GP002" "Shyampur" 6000 (PyFloat.Z2F 10))) (snd constructed)
       = Some (l2, h2)
    /\ SchemeMapper.view h2 l2 = Some for_large
    /\ SchemeMapper.view h1 l1
       = Some (filter (fun s => eligible_by_tag (SchemeInfo.eligible_panchayats s) 200)
                 for_large).
Proof.
  apply (find_eligible_monotone (snd constructed) (fst constructed) (seq 0 15)
           SchemeMapper.scheme_literals
           (example_panchayat "GP001" "Rampur" 200 (PyFloat.Z2F 10))
           (example_panchayat "GP002" "Shyampur" 6000 (PyFloat.Z2F 10))
           eq_refl eq_refl).
  simpl. lia.
Defined.

(** X17: on the catalog of the module, every unit is eligible for the 13
    schemes whose tag carries no condition; PMGSY is added exactly when the
    population is at least 250, and AMRUT 2.0 exactly when it is above
    5000. *)
Theorem find_eligible_on_catalog (p : GramPanchayat.t) :
  exists l h',
    SchemeMapper.find_eligible (fst constructed) (Some p) (snd constructed) = Some (l, h')
    /\ option_map (map SchemeInfo.name) (SchemeMapper.view h' l)
       = Some (["MGNREGA"; "PMAY-Gramin"; "Swachh Bharat Mission (Gramin)"]
               ++ (if GramPanchayat.population p >=? 250 then ["PMGSY"] else [])
               ++ ["National Health Mission"; "Samagra Shiksha";
                   "National Rural Livelihood Mission"; "DDU-GKY"; "Jal Jeevan Mission";
                   "PM-KISAN"; "RKVY-RAFTAAR"; "ICDS/Poshan Abhiyaan";
                   "Mid-Day Meal (PM-POSHAN)"; "NSAP (National Social Assistance)"]
               ++ (if GramPanchayat.population p >? 5000 then ["AMRUT 2.0"] else [])).
Proof.
  eexists _, _.
  split; [exact (find_eligible_some_value (snd constructed) (fst constructed) (seq 0 15)
                   SchemeMapper.scheme_literals eq_refl eq_refl p) |].
  rewrite (view_last (snd constructed) _ _
             (deref_chosen (snd constructed) _ (seq 0 15) SchemeMapper.scheme_literals
                eq_refl)).
  unfold eligible_by_tag, SchemeMapper.scheme_literals. simpl.
  destruct (GramPanchayat.population p >=? 250), (GramPanchayat.population p >? 5000);
    reflexivity.
Qed.

Lemma contains_py_in (q s : string) : SchemeMapper.contains q s = py_in q s.
Proof. induction s as [| c s IH]; simpl; [reflexivity | now rewrite IH]. Qed.

(** X18: [search] returns the catalog with the schemes that do not match
    left out, so the matches stand in catalog order; a scheme matches
    exactly when its lower-cased name or description has the lower-cased
    query as a contiguous substring; a query that lower-cases to the empty
    string returns the whole catalog. *)
Theorem search_spec (lower : string -> string) (h : Store.heap) (self : SchemeMapper.t)
    (items : list Store.ref) (cat : list SchemeInfo.t) (query : string) :
  nth_error h (SchemeMapper._schemes self) = Some (Store.ObjList items) ->
  SchemeMapper.deref_all h items = Some cat ->
  exists l h',
    SchemeMapper.search lower self query h = Some (l, h')
    /\ SchemeMapper.view h' l = Some (filter (scheme_matches lower query) cat)
    /\ (forall s,
          scheme_matches lower query s = true <->
          (exists pre post,
             lower (SchemeInfo.name s) = (pre ++ lower query ++ post)%string)
          \/ (exists pre post,
                lower (SchemeInfo.description s) = (pre ++ lower query ++ post)%string))
    /\ (lower query = "" -> filter (scheme_matches lower query) cat = cat).
Proof.
  intros Hl Hi. eexists _, _.
  split; [exact (search_value h self items cat Hl Hi lower query) |].
  split.
  - exact (view_last h _ _
             (deref_chosen h (scheme_matches lower query) items cat Hi)).
  - split.
    + intros s. unfold scheme_matches.
      now rewrite orb_true_iff, !py_in_spec.
    + intros E. rewrite <- (filter_true cat) at 2.
      apply filter_ext. intros s. unfold scheme_matches.
      now rewrite E, py_in_empty.
Qed.

Lemma search_spec_witness :
  exists l h',
    SchemeMapper.search ascii_lower (fst constructed) "Mission" (snd constructed)
    = Some (l, h')
    /\ option_map (map SchemeInfo.name) (SchemeMapper.view h' l)
       = Some ["Swachh Bharat Mission (Gramin)"; "National Health Mission";
               "National Rural Livelihood Mission"; "Jal Jeevan Mission"].
Proof.
  destruct (search_spec ascii_lower (snd constructed) (fst constructed) (seq 0 15)
              SchemeMapper.scheme_literals "Mission" eq_refl eq_refl)
    as (l & h' & E & V & _).
  exists l, h'. split; [exact E |].
  rewrite V. reflexivity.
Defined.

Example search_finds_by_description :
  option_map (fun r => option_map (map SchemeInfo.name) (SchemeMapper.view (snd r) (fst r)))
    (SchemeMapper.search ascii_lower (fst constructed) "EMPLOYMENT" (snd constructed))
  = Some (Some ["MGNREGA"]).
Proof. reflexivity. Qed.
